(** * The gold signal scoring engine of app.py

    A shallow embedding of [calculate_signal] (src/app.py, lines 54-110) and
    of the pandas operations it calls, followed by the properties of the
    engine that the specification states.

    Numbers.  A pandas 'Close' column holds IEEE-754 doubles.  The control
    flow of [calculate_signal] depends on the special values that pandas
    produces on the way (NaN for a rolling window that is not full, NaN for
    0/0, an infinity for x/0), so these are modelled explicitly by the type
    [float64] below.  Finite values are exact rationals: rounding is not
    modelled, and neither is the sign of zero (a zero divisor is read as
    +0; with -0 the quotient x/0 changes sign, and the RSI computed from it
    is the same).  Closing prices themselves are finite.

    Errors.  [Series.iloc] raises IndexError on an empty series; this is the
    only exception the body of [calculate_signal] can raise on a frame that
    has a 'Close' column, and it is modelled by the [result] type. *)

From Stdlib Require Import QArith ZArith List Lia Lqa.
From stdpp Require Import gmap strings list.

Local Open Scope Z_scope.

(** ** IEEE doubles, up to rounding *)

Inductive float64 : Type :=
| Fin (q : Q)
| PInf
| NInf
| NaN.

Definition Qltb (x y : Q) : bool :=
  match (x ?= y)%Q with Lt => true | _ => false end.

Definition fneg (x : float64) : float64 :=
  match x with
  | Fin a => Fin (- a)%Q
  | PInf => NInf
  | NInf => PInf
  | NaN => NaN
  end.

Definition fadd (x y : float64) : float64 :=
  match x, y with
  | NaN, _ | _, NaN => NaN
  | Fin a, Fin b => Fin (a + b)%Q
  | PInf, NInf | NInf, PInf => NaN
  | PInf, _ | _, PInf => PInf
  | NInf, _ | _, NInf => NInf
  end.

Definition fsub (x y : float64) : float64 := fadd x (fneg y).

Definition fdiv (x y : float64) : float64 :=
  match x, y with
  | NaN, _ | _, NaN => NaN
  | Fin a, Fin b =>
      match (b ?= 0)%Q with
      | Eq => match (a ?= 0)%Q with
              | Eq => NaN
              | Gt => PInf
              | Lt => NInf
              end
      | _ => Fin (a / b)%Q
      end
  | Fin _, _ => Fin 0%Q
  | PInf, Fin b => if Qltb b 0%Q then NInf else PInf
  | NInf, Fin b => if Qltb b 0%Q then PInf else NInf
  | _, _ => NaN
  end.

(** [x < y]; every comparison with NaN is false. *)
Definition flt (x y : float64) : bool :=
  match x, y with
  | NaN, _ | _, NaN => false
  | Fin a, Fin b => Qltb a b
  | NInf, NInf | PInf, _ => false
  | NInf, _ => true
  | Fin _, PInf => true
  | Fin _, NInf => false
  end.

Definition fgt (x y : float64) : bool := flt y x.

(** Numeric equality of doubles ([NaN] equals nothing). *)
Definition feq (x y : float64) : Prop :=
  match x, y with
  | Fin a, Fin b => (a == b)%Q
  | PInf, PInf | NInf, NInf => True
  | _, _ => False
  end.

(** ** Exceptions *)

Inductive exn : Type := IndexError.

Inductive result (A : Type) : Type :=
| Ok (a : A)
| Raise (e : exn).
Arguments Ok {A} a.
Arguments Raise {A} e.

#[global] Instance result_ret : MRet result := fun A a => Ok a.

#[global] Instance result_bind : MBind result := fun A B k r =>
  match r with
  | Ok a => k a
  | Raise e => Raise e
  end.

(** ** pandas Series *)

Definition Series : Type := list float64.

(** [s.iloc[i]] for an integer [i]: negative positions count from the end,
    a position outside the series raises IndexError. *)
Definition iloc (s : Series) (i : Z) : result float64 :=
  let n := Z.of_nat (length s) in
  let j := if i <? 0 then n + i else i in
  if (0 <=? j) && (j <? n) then
    match s !! Z.to_nat j with
    | Some x => Ok x
    | None => Raise IndexError
    end
  else Raise IndexError.

(** [s.diff()]: the first entry is NaN, entry [i] is [s[i] - s[i-1]]. *)
Definition diff (s : Series) : Series :=
  match s with
  | [] => []
  | _ :: s' => NaN :: zip_with fsub s' s
  end.

(** [s.where(cond, other)]. *)
Definition where_ (s : Series) (cond : list bool) (other : float64) : Series :=
  zip_with (fun x (c : bool) => if c then x else other) s cond.

Definition fsum (w : list float64) : float64 := fold_left fadd w (Fin 0%Q).

Definition fmean (w : list float64) : float64 :=
  fdiv (fsum w) (Fin (inject_Z (Z.of_nat (length w)))).

(** [s.rolling(w).mean()]: entry [i] is NaN until [w] observations are
    available, then the mean of the [w] entries that end at [i]. *)
Definition rolling_mean (w : nat) (s : Series) : Series :=
  map (fun i : nat =>
         if (S i <? w)%nat then NaN
         else fmean (firstn w (skipn (S i - w) s)))
      (seq 0 (length s)).

(** ** Data frames *)

(** One row of a price frame: the 'Close' cell and the cells of the other
    columns, by column name. *)
Record Row : Type := mkRow {
  Close : Q;
  other_columns : list (string * Q)
}.

Definition DataFrame : Type := list Row.

(** [df['Close']] *)
Definition col_Close (df : DataFrame) : Series :=
  map (fun r => Fin (Close r)) df.

(** ** calculate_signal *)

Definition key_gold : string := "黄金 (Gold)".
Definition key_dxy : string := "美元指数 (DXY)".
Definition key_vix : string := "恐慌指数 (VIX)".

Definition reason_ma_bull : string := "📈 技术面：金价位于50小时均线上方 (看涨)".
Definition reason_ma_bear : string := "📉 技术面：金价位于50小时均线下方 (看跌)".
Definition reason_rsi_oversold : string := "⚡ RSI指标：进入超卖区间 (反弹概率大)".
Definition reason_rsi_overbought : string := "⚠️ RSI指标：进入超买区间 (回调风险大)".
Definition reason_dxy_weak : string := "💵 宏观面：美元指数日内走弱 (利好黄金)".
Definition reason_dxy_strong : string := "💵 宏观面：美元指数日内走强 (利空黄金)".
Definition reason_vix_fear : string := "💣 情绪面：市场恐慌指数(VIX)较高 (避险资金流入)".
Definition reason_vix_calm : string := "🕊️ 情绪面：市场极度贪婪/平静 (避险需求低)".

(** The two local variables the function updates: [score] and [reasons]. *)
Definition State : Type := (Z * list string)%type.

(** [score += d; reasons.append(r)] *)
Definition fire (d : Z) (r : string) (st : State) : State :=
  (fst st + d, snd st ++ [r]).

(** Lines 65-67: [gain] and [loss], the 14-sample rolling means of the
    upward and of the downward moves. *)
Definition gain14 (close : Series) : Series :=
  let delta := diff close in
  rolling_mean 14 (where_ delta (map (fun d => fgt d (Fin 0%Q)) delta) (Fin 0%Q)).

Definition loss14 (close : Series) : Series :=
  let delta := diff close in
  rolling_mean 14
    (map fneg (where_ delta (map (fun d => flt d (Fin 0%Q)) delta) (Fin 0%Q))).

(** Lines 68-69: [rs = gain / loss; rsi = 100 - (100 / (1 + rs)).iloc[-1]]. *)
Definition rsi14 (close : Series) : result float64 :=
  let rs := zip_with fdiv (gain14 close) (loss14 close) in
  x ← iloc (map (fun r => fdiv (Fin 100%Q) (fadd (Fin 1%Q) r)) rs) (-1);
  Ok (fsub (Fin 100%Q) x).

(** Lines 60-83: the rules on the gold frame. *)
Definition gold_rules (gold_df : DataFrame) (st : State) : result State :=
  current_price ← iloc (col_Close gold_df) (-1);
  ma50 ← iloc (rolling_mean 50 (col_Close gold_df)) (-1);
  rsi ← rsi14 (col_Close gold_df);
  let st := if fgt current_price ma50
            then fire 2 reason_ma_bull st
            else fire (-2) reason_ma_bear st in
  let st := if flt rsi (Fin 30%Q) then fire 1 reason_rsi_oversold st
            else if fgt rsi (Fin 70%Q) then fire (-1) reason_rsi_overbought st
            else st in
  Ok st.

(** Lines 87-97: the rules on the dollar-index frame. *)
Definition dxy_rules (dxy_df : DataFrame) (st : State) : result State :=
  dxy_now ← iloc (col_Close dxy_df) (-1);
  dxy_prev ← (if (24 <? length dxy_df)%nat
               then iloc (col_Close dxy_df) (-24)
               else iloc (col_Close dxy_df) 0);
  Ok (if flt dxy_now dxy_prev
      then fire 2 reason_dxy_weak st
      else fire (-2) reason_dxy_strong st).

(** Lines 101-108: the rules on the VIX frame. *)
Definition vix_rules (vix_df : DataFrame) (st : State) : result State :=
  vix_now ← iloc (col_Close vix_df) (-1);
  Ok (if fgt vix_now (Fin 20%Q) then fire 2 reason_vix_fear st
      else if flt vix_now (Fin 13%Q) then fire (-1) reason_vix_calm st
      else st).

(** [df = data.get(key); if df is not None: ...] *)
Definition when_present (data : gmap string DataFrame) (key : string)
    (rules : DataFrame -> State -> result State) (st : State) : result State :=
  match data !! key with
  | Some df => rules df st
  | None => Ok st
  end.

Definition calculate_signal (data : gmap string DataFrame) : result State :=
  let st : State := (0, []) in
  st ← when_present data key_gold gold_rules st;
  st ← when_present data key_dxy dxy_rules st;
  st ← when_present data key_vix vix_rules st;
  Ok st.

(** ** The rule table

    The eight rules of the engine, in the order in which the function
    evaluates them, with the score change and the reason text of each. *)

Inductive Rule : Type :=
| MaBull | MaBear | RsiOversold | RsiOverbought
| DxyWeak | DxyStrong | VixFear | VixCalm.

Definition rule_table : list Rule :=
  [MaBull; MaBear; RsiOversold; RsiOverbought; DxyWeak; DxyStrong; VixFear; VixCalm].

Definition scoreDelta (r : Rule) : Z :=
  match r with
  | MaBull => 2 | MaBear => -2
  | RsiOversold => 1 | RsiOverbought => -1
  | DxyWeak => 2 | DxyStrong => -2
  | VixFear => 2 | VixCalm => -1
  end.

Definition reason (r : Rule) : string :=
  match r with
  | MaBull => reason_ma_bull | MaBear => reason_ma_bear
  | RsiOversold => reason_rsi_oversold | RsiOverbought => reason_rsi_overbought
  | DxyWeak => reason_dxy_weak | DxyStrong => reason_dxy_strong
  | VixFear => reason_vix_fear | VixCalm => reason_vix_calm
  end.

(** The indicators the rules read, when the frame is present and every
    [iloc] succeeds. *)
Definition gold_indicators (data : gmap string DataFrame)
    : option (float64 * float64 * float64) :=
  match data !! key_gold with
  | Some df =>
      match iloc (col_Close df) (-1),
            iloc (rolling_mean 50 (col_Close df)) (-1),
            rsi14 (col_Close df) with
      | Ok current_price, Ok ma50, Ok rsi => Some (current_price, ma50, rsi)
      | _, _, _ => None
      end
  | None => None
  end.

Definition dxy_indicators (data : gmap string DataFrame)
    : option (float64 * float64) :=
  match data !! key_dxy with
  | Some df =>
      match iloc (col_Close df) (-1),
            (if (24 <? length df)%nat
             then iloc (col_Close df) (-24)
             else iloc (col_Close df) 0) with
      | Ok dxy_now, Ok dxy_prev => Some (dxy_now, dxy_prev)
      | _, _ => None
      end
  | None => None
  end.

Definition vix_indicator (data : gmap string DataFrame) : option float64 :=
  match data !! key_vix with
  | Some df =>
      match iloc (col_Close df) (-1) with
      | Ok vix_now => Some vix_now
      | Raise _ => None
      end
  | None => None
  end.

(** The condition under which the code applies each rule, read off its
    branches: the instrument is present and the comparison of the rule
    holds ("else" for the rules 1' and 3'). *)
Definition precondition (data : gmap string DataFrame) (r : Rule) : bool :=
  match r with
  | MaBull =>
      match gold_indicators data with
      | Some (p, ma, _) => fgt p ma | None => false end
  | MaBear =>
      match gold_indicators data with
      | Some (p, ma, _) => negb (fgt p ma) | None => false end
  | RsiOversold =>
      match gold_indicators data with
      | Some (_, _, rsi) => flt rsi (Fin 30%Q) | None => false end
  | RsiOverbought =>
      match gold_indicators data with
      | Some (_, _, rsi) => fgt rsi (Fin 70%Q) | None => false end
  | DxyWeak =>
      match dxy_indicators data with
      | Some (now, prev) => flt now prev | None => false end
  | DxyStrong =>
      match dxy_indicators data with
      | Some (now, prev) => negb (flt now prev) | None => false end
  | VixFear =>
      match vix_indicator data with
      | Some v => fgt v (Fin 20%Q) | None => false end
  | VixCalm =>
      match vix_indicator data with
      | Some v => flt v (Fin 13%Q) | None => false end
  end.

(** The rules that apply to [data], in table order. *)
Definition fired (data : gmap string DataFrame) : list Rule :=
  List.filter (precondition data) rule_table.

Definition sum_deltas (rs : list Rule) : Z :=
  fold_right Z.add 0 (map scoreDelta rs).

(** Following the specification (sections 3, 4.1 and 4.2): the data a rule
    needs before it can apply.  The instrument must be present; the two
    moving-average rules need the 50 samples of the window and the two RSI
    rules need period + 1 = 15 samples; the dollar rules and the VIX rules
    need one sample (the lagged close falls back to the first sample). *)
Definition spec_enough_data (data : gmap string DataFrame) (r : Rule) : bool :=
  match r with
  | MaBull | MaBear =>
      match data !! key_gold with
      | Some df => (50 <=? length df)%nat | None => false end
  | RsiOversold | RsiOverbought =>
      match data !! key_gold with
      | Some df => (15 <=? length df)%nat | None => false end
  | DxyWeak | DxyStrong =>
      match data !! key_dxy with
      | Some df => (1 <=? length df)%nat | None => false end
  | VixFear | VixCalm =>
      match data !! key_vix with
      | Some df => (1 <=? length df)%nat | None => false end
  end.

(** Following the specification (section 3): the precondition of a rule is
    "enough data, threshold crossed"; [crossed] tells which thresholds
    are. *)
Definition spec_precondition (crossed : Rule -> bool)
    (data : gmap string DataFrame) (r : Rule) : bool :=
  spec_enough_data data r && crossed r.

(** What a group of rules does to the score and the reasons it starts from
    is to add its own score and append its own reasons. *)
Definition shifts (rules : DataFrame -> State -> result State) : Prop :=
  forall (df : DataFrame) (st : State),
    rules df st =
    match rules df (0, []) with
    | Ok c => Ok (fst st + fst c, snd st ++ snd c)
    | Raise e => Raise e
    end.

(** The frames [get_financial_data] stores are the non-empty ones
    (line 28: [if not df.empty]). *)
Definition frames_nonempty (data : gmap string DataFrame) : Prop :=
  forall (k : string) (df : DataFrame), data !! k = Some df -> df <> [].

(** Frames of a single column, for examples. *)
Definition frame (closes : list Q) : DataFrame :=
  map (fun c => mkRow c []) closes.

(** ** get_financial_data

    Lines 12-32.  [yf.download] is an external call: [download symbol] is
    [None] when it raises (the function reports the error and goes on). *)

Definition key_tnx : string := "10年美债收益率".
Definition key_spx : string := "标普500".

Definition tickers : list (string * string) :=
  [(key_gold, "GC=F"); (key_dxy, "DX-Y.NYB"); (key_tnx, "^TNX");
   (key_vix, "^VIX"); (key_spx, "^GSPC")].

(** [df.empty] *)
Definition empty_frame (df : DataFrame) : bool :=
  match df with [] => true | _ => false end.

Definition get_financial_data (download : string -> option DataFrame)
    : gmap string DataFrame :=
  fold_left
    (fun data_store (t : string * string) =>
       match download (snd t) with
       | Some df =>
           if negb (empty_frame df) then <[fst t := df]> data_store
           else data_store
       | None => data_store
       end)
    tickers ∅.

(** ** Sample inputs *)

Definition Qs (l : list Z) : list Q := map inject_Z l.

(** Gold well above its 50-hour mean and falling for 19 hours, a falling
    dollar index and a high VIX. *)
Definition data_all_bullish : gmap string DataFrame :=
  {[ key_gold := frame (repeat 1%Q 30 ++ Qs (map (fun n => 100 - Z.of_nat n) (seq 0 20)));
     key_dxy := frame [105%Q; 100%Q];
     key_vix := frame [25%Q] ]}.

(** Gold well below its 50-hour mean and rising for 19 hours, a rising
    dollar index and a low VIX. *)
Definition data_all_bearish : gmap string DataFrame :=
  {[ key_gold := frame (repeat 100%Q 30 ++ Qs (map (fun n => 1 + Z.of_nat n) (seq 0 20)));
     key_dxy := frame [100%Q; 105%Q];
     key_vix := frame [10%Q] ]}.

(** Scenario D of the specification: a VIX frame alone, closing at [v]. *)
Definition data_vix (v : Q) : gmap string DataFrame :=
  {[ key_vix := frame [18%Q; v] ]}.

(** Scenario A: sixty equal gold closes. *)
Definition data_flat_gold : gmap string DataFrame :=
  {[ key_gold := frame (repeat 1900%Q 60) ]}.

(** Ten rising gold closes: fewer than the fifty of the moving average. *)
Definition data_short_gold : gmap string DataFrame :=
  {[ key_gold := frame (Qs (map (fun n => 1900 + Z.of_nat n) (seq 0 10))) ]}.

(** Scenario C: a dollar-index frame of 25 rows, first close 105, latest
    close 100; the second close is 90. *)
Definition dxy_25 : DataFrame := frame (105%Q :: 90%Q :: repeat 100%Q 23).

Definition data_dxy_25 : gmap string DataFrame := {[ key_dxy := dxy_25 ]}.

(** Fifteen equal gold closes. *)
Definition gold_flat_15 : DataFrame := frame (repeat 1900%Q 15).

(** Fifteen rising gold closes. *)
Definition gold_rising_15 : DataFrame :=
  frame (Qs (map (fun n => 1900 + Z.of_nat n) (seq 0 15))).

(** Scenario B: gold rising for twenty samples, then flat for forty. *)
Definition gold_rise_then_flat : DataFrame :=
  frame (Qs (map (fun n => 1900 + Z.of_nat n) (seq 0 20)) ++ repeat 1920%Q 40).

(** The same closes with and without further columns. *)
Definition data_with_columns : gmap string DataFrame :=
  {[ key_dxy := [mkRow 105 [("Open", 104%Q); ("Volume", 900%Q)];
                 mkRow 100 [("Open", 105%Q); ("Volume", 1200%Q)]];
     key_vix := [mkRow 25 [("Open", 22%Q)]] ]}.

Definition data_close_only : gmap string DataFrame :=
  {[ key_dxy := frame [105%Q; 100%Q]; key_vix := frame [25%Q] ]}.

(** ** get_news

    Lines 36-51.  [feedparser.parse] is an external call: [parse url] is the
    list [feed.entries] it returns.  An entry carries a title and a link;
    its publication date may be missing ([entry.get('published', ...)]). *)

Record Entry : Type := mkEntry {
  title : string;
  link : string;
  published : option string
}.

(** The dictionary built for one entry. *)
Record NewsItem : Type := mkNewsItem {
  item_title : string;
  item_link : string;
  item_published : string
}.

Definition rss_urls : list string :=
  ["https://search.cnbc.com/rs/search/combinedcms/view.xml?partnerId=wrss01&id=10000664";
   "https://feeds.content.dowjones.io/public/rss/mw_topstories"].

Definition just_now : string := "刚刚".

Definition news_item (entry : Entry) : NewsItem :=
  mkNewsItem (title entry) (link entry)
             (match published entry with Some d => d | None => just_now end).

(** The two nested loops, appending to [news_items]. *)
Definition get_news (parse : string -> list Entry) : list NewsItem :=
  fold_left
    (fun news_items url =>
       fold_left (fun news_items entry => news_items ++ [news_item entry])
                 (firstn 5 (parse url)) news_items)
    rss_urls [].

(** ** main

    Lines 113-184, without the Streamlit widgets: what [main] computes from
    the data store and hands to them, in the order in which it does. *)

(** Lines 143-150: the advice shown for a score ([st.success], [st.info],
    [st.error] and [st.warning], in this order). *)
Inductive Advice : Type := StrongBuy | LeanBuy | StrongSell | Hold.

Definition advise (score : Z) : Advice :=
  if 3 <=? score then StrongBuy
  else if 0 <? score then LeanBuy
  else if score <=? -3 then StrongSell
  else Hold.

(** [main] indexes the store with [data[key]], which raises KeyError on a
    missing key; the IndexError of [iloc] passes through. *)
Inductive app_exn : Type :=
| KeyError (key : string)
| Engine (e : exn).

Inductive outcome (A : Type) : Type :=
| Done (a : A)
| Failed (e : app_exn).
Arguments Done {A} a.
Arguments Failed {A} e.

#[global] Instance outcome_ret : MRet outcome := fun A a => Done a.

#[global] Instance outcome_bind : MBind outcome := fun A B k r =>
  match r with
  | Done a => k a
  | Failed e => Failed e
  end.

Definition lift {A : Type} (r : result A) : outcome A :=
  match r with
  | Ok a => Done a
  | Raise e => Failed (Engine e)
  end.

(** [data[key]] *)
Definition getitem (data : gmap string DataFrame) (key : string)
    : outcome DataFrame :=
  match data !! key with
  | Some df => Done df
  | None => Failed (KeyError key)
  end.

(** [s[-n:]]: the last [n] entries, all of them when there are fewer. *)
Definition tail_slice (n : nat) (s : Series) : Series :=
  skipn (length s - n) s.

(** Lines 175-176: [(s - s.mean()) / s.mean()]. *)
Definition normalize (s : Series) : Series :=
  map (fun x => fdiv (fsub x (fmean s)) (fmean s)) s.

(** Lines 171-176: the normalised series computed from one frame, the
    right-hand side of the assignments to [df_chart['Gold']] and
    [df_chart['USD']]. *)
Definition chart_column (df : DataFrame) : Series :=
  normalize (tail_slice 120 (col_Close df)).

(** The numbers and texts the page shows (the numbers before they are
    formatted; the two chart series as they are computed, before pandas
    aligns the second one on the index of the first). *)
Record Dashboard : Type := mkDashboard {
  gold_price : float64;
  gold_change : float64;
  advice : Advice;
  advice_score : Z;
  dxy_price : float64;
  dxy_change : float64;
  decision_reasons : list string;
  chart_gold : Series;
  chart_usd : Series;
  headlines : list NewsItem
}.

Definition render (data : gmap string DataFrame) (news : list NewsItem)
    : outcome Dashboard :=
  sr ← lift (calculate_signal data);
  gold ← getitem data key_gold;
  cur_gold ← lift (iloc (col_Close gold) (-1));
  gold ← getitem data key_gold;
  prev_gold ← lift (iloc (col_Close gold) (-2));
  dxy ← getitem data key_dxy;
  cur_dxy ← lift (iloc (col_Close dxy) (-1));
  dxy ← getitem data key_dxy;
  prev_dxy ← lift (iloc (col_Close dxy) (-2));
  gold ← getitem data key_gold;
  dxy ← getitem data key_dxy;
  Done (mkDashboard cur_gold (fsub cur_gold prev_gold)
          (advise (fst sr)) (fst sr)
          cur_dxy (fsub cur_dxy prev_dxy)
          (snd sr)
          (chart_column gold) (chart_column dxy)
          news).

(** ** Notions used in the statements *)

(** The part of the input that belongs to one instrument. *)
Definition only (key : string) (data : gmap string DataFrame)
    : gmap string DataFrame :=
  match data !! key with
  | Some df => {[ key := df ]}
  | None => ∅
  end.

Definition bullish_reasons : list string :=
  [reason_ma_bull; reason_rsi_oversold; reason_dxy_weak; reason_vix_fear].

Definition bearish_reasons : list string :=
  [reason_ma_bear; reason_rsi_overbought; reason_dxy_strong; reason_vix_calm].

(** How many of the given reasons are in the list. *)
Definition count_reported (which reasons : list string) : nat :=
  length (List.filter (fun r => bool_decide (r ∈ reasons)) which).

(** A value that is neither NaN nor negative. *)
Definition nonneg (x : float64) : Prop :=
  match x with
  | Fin q => (0 <= q)%Q
  | PInf => True
  | _ => False
  end.

(** A frame has the two rows [iloc[-1]] and [iloc[-2]] need. *)
Definition two_rows (data : gmap string DataFrame) (key : string) : Prop :=
  exists df : DataFrame, data !! key = Some df /\ (2 <= length df)%nat.

(** The sum of a list of rationals. *)
Fixpoint Qsum (l : list Q) : Q :=
  match l with
  | [] => 0%Q
  | x :: l' => (x + Qsum l')%Q
  end.

(** What one download leaves in the store: the frame, unless the download
    raised or the frame has no rows. *)
Definition stored (download : string -> option DataFrame) (symbol : string)
    : option DataFrame :=
  match download symbol with
  | Some df => if negb (empty_frame df) then Some df else None
  | None => None
  end.

(** Sample inputs for the page. *)
Definition data_gold_dxy : gmap string DataFrame :=
  {[ key_gold := frame [1900%Q; 1910%Q]; key_dxy := frame [105%Q; 100%Q] ]}.

Definition download_all (symbol : string) : option DataFrame :=
  Some (frame [1900%Q; 1910%Q]).

Definition download_no_gold (symbol : string) : option DataFrame :=
  if bool_decide (symbol = "GC=F") then None else Some (frame [105%Q; 100%Q]).

Definition parse_seven (url : string) : list Entry :=
  map (fun n => mkEntry (String (Ascii.ascii_of_nat (65 + n)) EmptyString)
                        "https://example.com" None)
      (seq 0 7).

(** ** Facts about the comparisons *)

Lemma Qltb_lt (x y : Q) : Qltb x y = true <-> (x < y)%Q.
Proof.
  unfold Qltb. rewrite Qlt_alt.
  destruct (x ?= y)%Q; split; congruence.
Qed.

Lemma Qltb_ge (x y : Q) : Qltb x y = false <-> (y <= x)%Q.
Proof.
  rewrite <- not_true_iff_false, Qltb_lt. split.
  - apply Qnot_lt_le.
  - apply Qle_not_lt.
Qed.

Lemma Qltb_trans_false (a b x : Q) :
  (a <= b)%Q -> Qltb x a = true -> Qltb b x = false.
Proof.
  rewrite Qltb_lt, Qltb_ge. intros Hab Hx.
  apply Qlt_le_weak. eapply Qlt_le_trans; eauto.
Qed.

(** The two RSI thresholds exclude each other. *)
Lemma rsi_thresholds_exclusive (rsi : float64) :
  flt rsi (Fin 30%Q) = true -> fgt rsi (Fin 70%Q) = false.
Proof.
  destruct rsi as [q| | |]; simpl; try done.
  apply Qltb_trans_false. done.
Qed.

(** So do the two VIX thresholds. *)
Lemma vix_thresholds_exclusive (v : float64) :
  fgt v (Fin 20%Q) = true -> flt v (Fin 13%Q) = false.
Proof.
  destruct v as [q| | |]; simpl; try done.
  rewrite Qltb_lt, Qltb_ge. intros H.
  apply Qlt_le_weak. eapply Qle_lt_trans; [|exact H]. done.
Qed.

(** ** The function as a fold over the rule table *)

Ltac unfold_engine :=
  unfold calculate_signal, when_present, gold_rules, dxy_rules, vix_rules,
    fired, precondition, gold_indicators, dxy_indicators, vix_indicator in *.

Ltac simpl_result := cbn [mbind result_bind mret result_ret].

(** Case analysis on every lookup the function makes. *)
Ltac split_lookups :=
  repeat (simpl_result;
    match goal with
    | |- context [if (24 <? ?n)%nat then _ else _] => destruct (24 <? n)%nat
    | |- context [iloc ?s ?i] => destruct (iloc s i) eqn:?
    | |- context [rsi14 ?s] => destruct (rsi14 s) eqn:?
    end); simpl_result.

Ltac split_comparisons :=
  repeat match goal with
    | |- context [flt ?x ?y] => destruct (flt x y) eqn:?
    | |- context [fgt ?x ?y] => destruct (fgt x y) eqn:?
    end.

Ltac exclusive_thresholds :=
  match goal with
  | H : flt ?r (Fin 30%Q) = true, H' : fgt ?r (Fin 70%Q) = true |- _ =>
      rewrite (rsi_thresholds_exclusive r H) in H'; discriminate
  | H : fgt ?v (Fin 20%Q) = true, H' : flt ?v (Fin 13%Q) = true |- _ =>
      rewrite (vix_thresholds_exclusive v H) in H'; discriminate
  end.

(** Whenever the function returns, its score and its reasons are those of
    the rules that apply, in table order. *)
Lemma calculate_signal_fired (data : gmap string DataFrame) (st : State) :
  calculate_signal data = Ok st ->
  st = (sum_deltas (fired data), map reason (fired data)).
Proof.
  unfold_engine.
  destruct (data !! key_gold) as [g|], (data !! key_dxy) as [d|],
    (data !! key_vix) as [v|].
  all: split_lookups; try discriminate.
  all: split_comparisons; try exclusive_thresholds.
  all: intros [= <-]; reflexivity.
Qed.

(** ** Lists of reasons *)

Lemma NoDup_map_inj {A B : Type} (f : A -> B) (l : list A) (x y : A) :
  NoDup (map f l) -> In x l -> In y l -> f x = f y -> x = y.
Proof.
  induction l as [|a l IH]; simpl; [done|].
  intros Hnd Hx Hy Hxy. apply NoDup_cons in Hnd as [Ha Hnd].
  rewrite list_elem_of_In in Ha.
  destruct Hx as [<-|Hx], Hy as [<-|Hy]; auto.
  - exfalso. apply Ha. rewrite Hxy. by apply in_map.
  - exfalso. apply Ha. rewrite <- Hxy. by apply in_map.
Qed.

(** Over a list whose images under [f] are distinct, selecting the elements
    whose image is among the images of the selected ones selects the same
    elements. *)
Lemma filter_by_image {A B : Type} `{EqDecision B} (f : A -> B) (p : A -> bool)
    (l : list A) :
  NoDup (map f l) ->
  List.filter (fun x => bool_decide (f x ∈ map f (List.filter p l))) l
  = List.filter p l.
Proof.
  intros Hnd. apply List.filter_ext_in. intros x Hx.
  destruct (p x) eqn:Hp.
  - apply bool_decide_eq_true. rewrite list_elem_of_In.
    apply in_map. apply filter_In. done.
  - apply bool_decide_eq_false. rewrite list_elem_of_In.
    intros (y & Hxy & Hy)%in_map_iff. apply filter_In in Hy as [Hy Hpy].
    assert (y = x) as -> by (eapply NoDup_map_inj; eauto).
    congruence.
Qed.

Lemma reasons_distinct : NoDup (map reason rule_table).
Proof. apply (bool_decide_unpack _). by vm_compute. Qed.

Lemma rule_in_table (r : Rule) : In r rule_table.
Proof. destruct r; simpl; tauto. Qed.

(** A reason is reported exactly when its rule applies. *)
Lemma reason_reported_iff (data : gmap string DataFrame) (r : Rule) :
  reason r ∈ map reason (fired data) <-> precondition data r = true.
Proof.
  rewrite list_elem_of_In. unfold fired. split.
  - intros (y & Hy & Hin)%in_map_iff. apply filter_In in Hin as [Hin Hp].
    assert (y = r) as ->; [|done].
    eapply NoDup_map_inj; eauto using reasons_distinct, rule_in_table.
  - intros Hp. apply in_map, filter_In. split; [apply rule_in_table | done].
Qed.

(** ** Positions in a series *)

Lemma length_rolling_mean (w : nat) (s : Series) :
  length (rolling_mean w s) = length s.
Proof. unfold rolling_mean. by rewrite length_map, length_seq. Qed.

Lemma length_diff (s : Series) : length (diff s) = length s.
Proof.
  destruct s as [|x s]; simpl; [done|].
  rewrite length_zip_with. simpl. lia.
Qed.

Lemma length_where (s : Series) (f : float64 -> bool) (other : float64) :
  length (where_ s (map f s) other) = length s.
Proof. unfold where_. rewrite length_zip_with, length_map. lia. Qed.

Lemma length_gain14 (s : Series) : length (gain14 s) = length s.
Proof.
  unfold gain14. by rewrite length_rolling_mean, length_where, length_diff.
Qed.

Lemma length_loss14 (s : Series) : length (loss14 s) = length s.
Proof.
  unfold loss14.
  by rewrite length_rolling_mean, length_map, length_where, length_diff.
Qed.

Lemma length_col_Close (df : DataFrame) : length (col_Close df) = length df.
Proof. apply length_map. Qed.

(** [iloc] succeeds on every position of the series, counted from either
    end. *)
Lemma iloc_in_range (s : Series) (i : Z) :
  - Z.of_nat (length s) <= i < Z.of_nat (length s) ->
  exists x, iloc s i = Ok x.
Proof.
  intros Hi. unfold iloc.
  set (j := if i <? 0 then Z.of_nat (length s) + i else i).
  assert (0 <= j < Z.of_nat (length s)) as Hj
    by (subst j; destruct (Z.ltb_spec i 0); lia).
  destruct (Z.leb_spec 0 j), (Z.ltb_spec j (Z.of_nat (length s))); try lia.
  simpl. destruct (s !! Z.to_nat j) eqn:Hn; [eauto|].
  apply lookup_ge_None in Hn. lia.
Qed.

(** [s.iloc[-1]] is the last entry. *)
Lemma iloc_last (s : Series) :
  iloc s (-1) = match last s with Some x => Ok x | None => Raise IndexError end.
Proof.
  unfold iloc. rewrite last_lookup.
  destruct s as [|x s]; [done|].
  change (-1 <? 0) with true. cbv iota.
  replace (Z.of_nat (length (x :: s)) + -1) with (Z.of_nat (length s))
    by (simpl; lia).
  destruct (Z.leb_spec 0 (Z.of_nat (length s))); [|lia].
  destruct (Z.ltb_spec (Z.of_nat (length s)) (Z.of_nat (length (x :: s))));
    [|simpl in *; lia].
  rewrite Nat2Z.id. simpl andb. cbv iota.
  done.
Qed.

(** ** The function always returns *)

Lemma nonempty_in_range (s : Series) :
  s <> [] -> - Z.of_nat (length s) <= -1 < Z.of_nat (length s)
             /\ - Z.of_nat (length s) <= 0 < Z.of_nat (length s).
Proof. destruct s; [done|]. simpl. lia. Qed.

Lemma col_Close_nonempty (df : DataFrame) : df <> [] -> col_Close df <> [].
Proof. by destruct df. Qed.

Lemma rsi14_returns (s : Series) : s <> [] -> exists r, rsi14 s = Ok r.
Proof.
  intros Hs. unfold rsi14.
  destruct (iloc_in_range
    (map (fun r => fdiv (Fin 100%Q) (fadd (Fin 1%Q) r))
         (zip_with fdiv (gain14 s) (loss14 s))) (-1)) as [x ->].
  - rewrite length_map, length_zip_with, length_gain14, length_loss14.
    destruct s; [done|]. simpl. lia.
  - simpl_result. eauto.
Qed.

Lemma gold_rules_returns (df : DataFrame) (st : State) :
  df <> [] -> exists st', gold_rules df st = Ok st'.
Proof.
  intros Hdf%col_Close_nonempty. unfold gold_rules.
  destruct (iloc_in_range (col_Close df) (-1)) as [p ->];
    [by apply nonempty_in_range|].
  destruct (iloc_in_range (rolling_mean 50 (col_Close df)) (-1)) as [ma ->];
    [rewrite length_rolling_mean; by apply nonempty_in_range|].
  destruct (rsi14_returns _ Hdf) as [r ->].
  simpl_result. eauto.
Qed.

Lemma dxy_rules_returns (df : DataFrame) (st : State) :
  df <> [] -> exists st', dxy_rules df st = Ok st'.
Proof.
  intros Hdf%col_Close_nonempty. unfold dxy_rules.
  destruct (iloc_in_range (col_Close df) (-1)) as [now ->];
    [by apply nonempty_in_range|].
  simpl_result.
  destruct (Nat.ltb_spec 24 (length df)) as [Hlen|Hlen].
  - destruct (iloc_in_range (col_Close df) (-24)) as [prev ->];
      [rewrite length_col_Close; lia|].
    simpl_result. eauto.
  - destruct (iloc_in_range (col_Close df) 0) as [prev ->];
      [by apply nonempty_in_range|].
    simpl_result. eauto.
Qed.

Lemma vix_rules_returns (df : DataFrame) (st : State) :
  df <> [] -> exists st', vix_rules df st = Ok st'.
Proof.
  intros Hdf%col_Close_nonempty. unfold vix_rules.
  destruct (iloc_in_range (col_Close df) (-1)) as [now ->];
    [by apply nonempty_in_range|].
  simpl_result. eauto.
Qed.

Lemma when_present_returns (data : gmap string DataFrame) (key : string)
    (rules : DataFrame -> State -> result State) (st : State) :
  frames_nonempty data ->
  (forall df st, df <> [] -> exists st', rules df st = Ok st') ->
  exists st', when_present data key rules st = Ok st'.
Proof.
  intros Hne Hrules. unfold when_present.
  destruct (data !! key) as [df|] eqn:Hdf; [|eauto].
  apply Hrules. eapply Hne. done.
Qed.

(** Every frame that [get_financial_data] stores has a row. *)
Lemma get_financial_data_nonempty (download : string -> option DataFrame) :
  frames_nonempty (get_financial_data download).
Proof.
  unfold get_financial_data.
  assert (frames_nonempty (∅ : gmap string DataFrame)) as Hinit
    by (intros k df; by rewrite lookup_empty).
  revert Hinit. generalize (∅ : gmap string DataFrame).
  induction tickers as [|[name symbol] l IH]; intros store Hstore; [done|].
  simpl. apply IH.
  destruct (download symbol) as [df|]; [|done].
  destruct df as [|row df]; [done|]. simpl.
  intros k df' Hk. destruct (decide (name = k)) as [->|Hne].
  - rewrite lookup_insert_eq in Hk. by injection Hk as <-.
  - rewrite lookup_insert_ne in Hk by done. by eapply Hstore.
Qed.

Lemma calculate_signal_returns (data : gmap string DataFrame) :
  frames_nonempty data -> exists st, calculate_signal data = Ok st.
Proof.
  intros Hne. unfold calculate_signal.
  destruct (when_present_returns data key_gold gold_rules (0, []) Hne
              gold_rules_returns) as [st1 H1].
  rewrite H1. simpl_result.
  destruct (when_present_returns data key_dxy dxy_rules st1 Hne
              dxy_rules_returns) as [st2 H2].
  rewrite H2. simpl_result.
  destruct (when_present_returns data key_vix vix_rules st2 Hne
              vix_rules_returns) as [st3 H3].
  rewrite H3. simpl_result. eauto.
Qed.

(** X14.  On the store [get_financial_data] builds from downloads that
    raise or return a frame with one 'Close' column of prices, the function
    returns. *)
Lemma calculate_signal_on_store (download : string -> option DataFrame) :
  exists st, calculate_signal (get_financial_data download) = Ok st.
Proof. apply calculate_signal_returns, get_financial_data_nonempty. Qed.

(** C5, as the claim states it, fails: on an input map that holds a gold
    frame without rows, [iloc[-1]] raises IndexError and no result is
    returned. *)
Lemma always_returns_counterexample :
  calculate_signal {[ key_gold := [] ]} = Raise IndexError
  /\ ~ (exists score reasons,
          calculate_signal {[ key_gold := [] ]} = Ok (score, reasons)).
Proof. split; [reflexivity|]. by intros (score & reasons & H). Qed.

(** C5, amended.  For every input map whose frames each have at least one
    row (the frames of the instruments that are absent are simply not in
    the map), [calculate_signal] returns a score and a list of reasons and
    raises nothing; when the five instruments are all missing, the score is
    0 and the list of reasons is empty. *)
Theorem calculate_signal_always_returns (data : gmap string DataFrame) :
  frames_nonempty data ->
  (exists score reasons, calculate_signal data = Ok (score, reasons)) /\
  (data !! key_gold = None -> data !! key_dxy = None ->
   data !! key_tnx = None -> data !! key_vix = None ->
   data !! key_spx = None ->
   calculate_signal data = Ok (0, [])).
Proof.
  intros Hne. split.
  - destruct (calculate_signal_returns data Hne) as [[score reasons] Hrun].
    eauto.
  - intros Hg Hd _ Hv _. unfold calculate_signal, when_present.
    by rewrite Hg, Hd, Hv.
Qed.

Lemma frames_nonempty_empty : frames_nonempty ∅.
Proof. intros k df. by rewrite lookup_empty. Qed.

Lemma frames_nonempty_insert (data : gmap string DataFrame) (k : string)
    (df : DataFrame) :
  df <> [] -> frames_nonempty data -> frames_nonempty (<[k := df]> data).
Proof.
  intros Hdf Hdata k' df' Hk'. rewrite lookup_insert in Hk'.
  case_decide; [by injection Hk' as <- | by eapply Hdata].
Qed.

Lemma calculate_signal_always_returns_witness :
  frames_nonempty data_all_bearish
  /\ (exists score reasons,
        calculate_signal data_all_bearish = Ok (score, reasons))
  /\ frames_nonempty ∅
  /\ calculate_signal ∅ = Ok (0, []).
Proof.
  assert (frames_nonempty data_all_bearish) as Hne.
  { unfold data_all_bearish.
    repeat (apply frames_nonempty_insert; [discriminate|]).
    apply frames_nonempty_empty. }
  split; [exact Hne|].
  split; [exact (proj1 (calculate_signal_always_returns _ Hne))|].
  split; [exact frames_nonempty_empty|].
  apply (calculate_signal_always_returns ∅ frames_nonempty_empty);
    apply lookup_empty.
Defined.

(** ** Score and reasons *)

(** C1, on the code.  On ten rising gold closes no rule has the data its
    precondition asks for (the moving-average rules need fifty samples, the
    RSI rules fifteen, the other instruments are missing), so whatever the
    thresholds are, no precondition holds; yet the function returns one
    reason and the score -2. *)
Theorem reasons_without_applicable_rule :
  calculate_signal data_short_gold = Ok (-2, [reason_ma_bear])
  /\ length [reason_ma_bear] = 1%nat
  /\ forall crossed : Rule -> bool,
       length (List.filter (spec_precondition crossed data_short_gold)
                 rule_table) = 0%nat.
Proof. split; [reflexivity|]. split; [reflexivity|]. intros crossed. reflexivity. Qed.

(** X20.  No hidden contributions: whenever [calculate_signal] returns, the
    score is the sum of the score changes of exactly the rules whose reason
    text is in the returned list, and every entry of the list is the reason
    of a rule of the table. *)
Theorem no_hidden_contributions (data : gmap string DataFrame)
    (score : Z) (reasons : list string) :
  calculate_signal data = Ok (score, reasons) ->
  score = sum_deltas
            (List.filter (fun r => bool_decide (reason r ∈ reasons)) rule_table)
  /\ Forall (fun s => s ∈ map reason rule_table) reasons.
Proof.
  intros [= -> ->]%calculate_signal_fired. split.
  - unfold fired. by rewrite (filter_by_image _ _ _ reasons_distinct).
  - apply Forall_forall. intros s (r & <- & Hr)%list_elem_of_In%in_map_iff.
    apply list_elem_of_In, in_map, rule_in_table.
Qed.

Lemma no_hidden_contributions_witness :
  7 = sum_deltas
        (List.filter
           (fun r => bool_decide
              (reason r ∈ [reason_ma_bull; reason_rsi_oversold;
                           reason_dxy_weak; reason_vix_fear]))
           rule_table)
  /\ Forall (fun s => s ∈ map reason rule_table)
       [reason_ma_bull; reason_rsi_oversold; reason_dxy_weak; reason_vix_fear].
Proof.
  apply (no_hidden_contributions data_all_bullish). reflexivity.
Defined.

(** C4.  The two rules of a pair never both report: gold above and below
    the moving average, RSI oversold and overbought, dollar weakening and
    strengthening, VIX high and low. *)
Theorem exclusive_pairs_never_both (data : gmap string DataFrame)
    (score : Z) (reasons : list string) :
  calculate_signal data = Ok (score, reasons) ->
  ~ (reason_ma_bull ∈ reasons /\ reason_ma_bear ∈ reasons)
  /\ ~ (reason_rsi_oversold ∈ reasons /\ reason_rsi_overbought ∈ reasons)
  /\ ~ (reason_dxy_weak ∈ reasons /\ reason_dxy_strong ∈ reasons)
  /\ ~ (reason_vix_fear ∈ reasons /\ reason_vix_calm ∈ reasons).
Proof.
  intros [= -> ->]%calculate_signal_fired.
  repeat split.
  - intros [H1%(reason_reported_iff data MaBull) H2%(reason_reported_iff data MaBear)].
    cbn [precondition] in H1, H2. destruct (gold_indicators data) as [[[p ma] rsi]|]; [|done].
    by destruct (fgt p ma).
  - intros [H1%(reason_reported_iff data RsiOversold)
             H2%(reason_reported_iff data RsiOverbought)].
    cbn [precondition] in H1, H2. destruct (gold_indicators data) as [[[p ma] rsi]|]; [|done].
    rewrite (rsi_thresholds_exclusive _ H1) in H2. done.
  - intros [H1%(reason_reported_iff data DxyWeak) H2%(reason_reported_iff data DxyStrong)].
    cbn [precondition] in H1, H2. destruct (dxy_indicators data) as [[now prev]|]; [|done].
    by destruct (flt now prev).
  - intros [H1%(reason_reported_iff data VixFear) H2%(reason_reported_iff data VixCalm)].
    cbn [precondition] in H1, H2. destruct (vix_indicator data) as [v|]; [|done].
    rewrite (vix_thresholds_exclusive _ H1) in H2. done.
Qed.

Lemma exclusive_pairs_never_both_witness :
  calculate_signal data_all_bearish
  = Ok (-6, [reason_ma_bear; reason_rsi_overbought; reason_dxy_strong; reason_vix_calm])
  /\ ~ (reason_ma_bull ∈ [reason_ma_bear; reason_rsi_overbought; reason_dxy_strong;
                          reason_vix_calm]
        /\ reason_ma_bear ∈ [reason_ma_bear; reason_rsi_overbought; reason_dxy_strong;
                             reason_vix_calm]).
Proof.
  assert (calculate_signal data_all_bearish
          = Ok (-6, [reason_ma_bear; reason_rsi_overbought; reason_dxy_strong;
                     reason_vix_calm])) as Hrun by (vm_compute; reflexivity).
  split; [exact Hrun|].
  exact (proj1 (exclusive_pairs_never_both _ _ _ Hrun)).
Defined.

(** C9, as the claim states it, fails: with gold above its moving average
    and oversold, the dollar index falling and the VIX above 20, the score
    is 7. *)
Lemma score_bound_counterexample :
  calculate_signal data_all_bullish
  = Ok (7, [reason_ma_bull; reason_rsi_oversold; reason_dxy_weak; reason_vix_fear])
  /\ ~ (-5 <= 7 <= 5).
Proof. split; [vm_compute; reflexivity | lia]. Qed.

(** C9, amended.  Whenever [calculate_signal] returns, the score lies
    between -6 and 7. *)
Theorem score_bound (data : gmap string DataFrame)
    (score : Z) (reasons : list string) :
  calculate_signal data = Ok (score, reasons) -> -6 <= score <= 7.
Proof.
  intros [= -> _]%calculate_signal_fired.
  unfold fired, rule_table. cbn [List.filter].
  destruct (precondition data MaBull), (precondition data MaBear),
    (precondition data RsiOversold), (precondition data RsiOverbought),
    (precondition data DxyWeak), (precondition data DxyStrong),
    (precondition data VixFear), (precondition data VixCalm).
  all: vm_compute; split; discriminate.
Qed.

Lemma score_bound_witness :
  calculate_signal data_all_bearish
  = Ok (-6, [reason_ma_bear; reason_rsi_overbought; reason_dxy_strong; reason_vix_calm])
  /\ -6 <= -6 <= 7.
Proof.
  assert (calculate_signal data_all_bearish
          = Ok (-6, [reason_ma_bear; reason_rsi_overbought; reason_dxy_strong;
                     reason_vix_calm])) as Hrun by (vm_compute; reflexivity).
  split; [exact Hrun | exact (score_bound _ _ _ Hrun)].
Defined.

(** Both ends of the range are reached. *)
Lemma extreme_scores_reached :
  (exists reasons, calculate_signal data_all_bullish = Ok (7, reasons))
  /\ (exists reasons, calculate_signal data_all_bearish = Ok (-6, reasons)).
Proof. split; eexists; vm_compute; reflexivity. Qed.

(** ** The three groups of rules, one after the other *)

Lemma keys_distinct :
  key_gold <> key_dxy /\ key_gold <> key_vix /\ key_dxy <> key_vix.
Proof. repeat split; discriminate. Qed.

Ltac prove_shifts :=
  intros df [score reasons];
  unfold gold_rules, dxy_rules, vix_rules; split_lookups; try reflexivity;
  split_comparisons; unfold fire; cbn [fst snd app Z.add];
  rewrite ?Z.add_0_r, ?app_nil_r, <- ?Z.add_assoc, <- ?app_assoc;
  reflexivity.

Lemma gold_rules_shifts : shifts gold_rules.
Proof. prove_shifts. Qed.

Lemma dxy_rules_shifts : shifts dxy_rules.
Proof. prove_shifts. Qed.

Lemma vix_rules_shifts : shifts vix_rules.
Proof. prove_shifts. Qed.

Lemma when_present_shifts (data : gmap string DataFrame) (key : string)
    (rules : DataFrame -> State -> result State) (st : State) :
  shifts rules ->
  when_present data key rules st =
  match when_present data key rules (0, []) with
  | Ok c => Ok (fst st + fst c, snd st ++ snd c)
  | Raise e => Raise e
  end.
Proof.
  intros Hrules. unfold when_present. destruct (data !! key) as [df|].
  - apply Hrules.
  - destruct st. simpl. by rewrite Z.add_0_r, app_nil_r.
Qed.

(** Removing the VIX frame removes the last group of rules. *)
Lemma calculate_signal_without_vix (data : gmap string DataFrame) :
  calculate_signal (delete key_vix data) =
  (st ← when_present data key_gold gold_rules (0, []);
   when_present data key_dxy dxy_rules st).
Proof.
  destruct keys_distinct as (_ & Hgv & Hdv).
  unfold calculate_signal, when_present.
  rewrite lookup_delete_eq.
  rewrite !lookup_delete_ne by (by apply not_eq_sym).
  destruct (data !! key_gold) as [g|]; simpl_result.
  - destruct (gold_rules g (0, [])); simpl_result; [|done].
    destruct (data !! key_dxy) as [d|]; simpl_result; [|done].
    by destruct (dxy_rules d a).
  - destruct (data !! key_dxy) as [d|]; simpl_result; [|done].
    by destruct (dxy_rules d (0, [])).
Qed.

(** Removing the gold frame removes the first group of rules. *)
Lemma calculate_signal_without_gold (data : gmap string DataFrame) :
  calculate_signal (delete key_gold data) =
  (st ← when_present data key_dxy dxy_rules (0, []);
   when_present data key_vix vix_rules st).
Proof.
  destruct keys_distinct as (Hgd & Hgv & _).
  unfold calculate_signal, when_present.
  rewrite lookup_delete_eq.
  rewrite !lookup_delete_ne by done. simpl_result.
  destruct (data !! key_dxy) as [d|]; simpl_result.
  - destruct (dxy_rules d (0, [])); simpl_result; [|done].
    destruct (data !! key_vix) as [v|]; simpl_result; [|done].
    by destruct (vix_rules v a).
  - destruct (data !! key_vix) as [v|]; simpl_result; [|done].
    by destruct (vix_rules v (0, [])).
Qed.

(** With the gold group contributing [c], the result is [c] followed by
    the result without the gold frame. *)
Lemma calculate_signal_gold_first (data : gmap string DataFrame)
    (df : DataFrame) (c rest : State) :
  data !! key_gold = Some df ->
  gold_rules df (0, []) = Ok c ->
  calculate_signal (delete key_gold data) = Ok rest ->
  calculate_signal data = Ok (fst c + fst rest, snd c ++ snd rest).
Proof.
  intros Hdf Hc. rewrite calculate_signal_without_gold.
  unfold calculate_signal.
  assert (when_present data key_gold gold_rules (0, []) = Ok c) as ->
    by (unfold when_present; by rewrite Hdf).
  simpl_result.
  rewrite (when_present_shifts data key_dxy dxy_rules c dxy_rules_shifts).
  destruct (when_present data key_dxy dxy_rules (0, [])) as [st2|];
    simpl_result; [|done].
  rewrite (when_present_shifts data key_vix vix_rules st2 vix_rules_shifts).
  rewrite (when_present_shifts data key_vix vix_rules
             (fst c + fst st2, snd c ++ snd st2) vix_rules_shifts).
  destruct (when_present data key_vix vix_rules (0, [])) as [st3|];
    simpl_result; [|done].
  intros [= <-]. cbn [fst snd]. by rewrite Z.add_assoc, app_assoc.
Qed.

(** ** The VIX rules *)

(** C7.  With the VIX frame present and its latest close [v]: above 20 the
    score gets +2 and the high-fear reason; below 13 it gets -1 and the
    complacency reason; from 13 to 20 it is the score and the reasons of
    the other instruments, unchanged. *)
Theorem vix_contribution (data : gmap string DataFrame) (df : DataFrame)
    (v : Q) (score : Z) (reasons : list string) :
  data !! key_vix = Some df ->
  iloc (col_Close df) (-1) = Ok (Fin v) ->
  calculate_signal (delete key_vix data) = Ok (score, reasons) ->
  ((20 < v)%Q ->
   calculate_signal data = Ok (score + 2, reasons ++ [reason_vix_fear]))
  /\ ((v < 13)%Q ->
      calculate_signal data = Ok (score - 1, reasons ++ [reason_vix_calm]))
  /\ ((13 <= v <= 20)%Q ->
      calculate_signal data = Ok (score, reasons)).
Proof.
  intros Hdf Hv. rewrite calculate_signal_without_vix.
  unfold calculate_signal.
  destruct (when_present data key_gold gold_rules (0, [])) as [st1|];
    simpl_result; [|done].
  intros ->. simpl_result.
  unfold when_present, vix_rules. rewrite Hdf, Hv. simpl_result.
  unfold fgt. cbn [flt]. repeat split.
  - intros H%Qltb_lt. by rewrite H.
  - intros H. assert (Qltb 20 v = false) as ->.
    { apply Qltb_ge. apply Qlt_le_weak. eapply Qlt_trans; [exact H|done]. }
    apply Qltb_lt in H. by rewrite H.
  - intros [H13%Qltb_ge H20%Qltb_ge]. by rewrite H20, H13.
Qed.

Lemma vix_contribution_witness :
  calculate_signal (data_vix 25) = Ok (0 + 2, [] ++ [reason_vix_fear])
  /\ calculate_signal (data_vix 10) = Ok (0 - 1, [] ++ [reason_vix_calm])
  /\ calculate_signal (data_vix 16) = Ok (0, []).
Proof.
  split; [|split].
  - apply (vix_contribution (data_vix 25) (frame [18%Q; 25%Q]) 25 0 []);
      reflexivity.
  - apply (vix_contribution (data_vix 10) (frame [18%Q; 10%Q]) 10 0 []);
      reflexivity.
  - apply (vix_contribution (data_vix 16) (frame [18%Q; 16%Q]) 16 0 []);
      try reflexivity.
    split; discriminate.
Defined.

(** ** A flat gold series *)

Lemma fsum_repeat (c : Q) (n : nat) (a : Q) :
  exists q, fold_left fadd (repeat (Fin c) n) (Fin a) = Fin q
            /\ (q == a + inject_Z (Z.of_nat n) * c)%Q.
Proof.
  revert a. induction n as [|n IH]; intros a.
  - exists a. split; [done|]. change (inject_Z (Z.of_nat 0)) with 0%Q. ring.
  - destruct (IH (a + c)%Q) as (q & Hq & Heq).
    exists q. split; [exact Hq|].
    rewrite Heq, Nat2Z.inj_succ. unfold Z.succ. rewrite inject_Z_plus.
    change (inject_Z 1) with 1%Q. ring.
Qed.

(** The mean of [n] equal values is that value. *)
Lemma fmean_repeat (c : Q) (n : nat) :
  (0 < n)%nat ->
  exists q, fmean (repeat (Fin c) n) = Fin q /\ (q == c)%Q.
Proof.
  intros Hn. unfold fmean, fsum. rewrite repeat_length.
  destruct (fsum_repeat c n 0) as (q & -> & Hq).
  assert (0 < inject_Z (Z.of_nat n))%Q as Hpos.
  { change 0%Q with (inject_Z 0). rewrite <- Zlt_Qlt. lia. }
  unfold fdiv.
  assert ((inject_Z (Z.of_nat n) ?= 0)%Q = Gt) as ->.
  { apply Qgt_alt. exact Hpos. }
  eexists. split; [reflexivity|].
  rewrite Hq. field. intros H0. rewrite H0 in Hpos. by apply Qlt_irrefl in Hpos.
Qed.

(** Over sixty equal closes the latest close equals the moving average,
    and the two 14-sample means are both zero, so the RSI is 0/0. *)
Lemma flat_gold_indicators (c : Q) :
  iloc (repeat (Fin c) 60) (-1) = Ok (Fin c)
  /\ (exists q, iloc (rolling_mean 50 (repeat (Fin c) 60)) (-1) = Ok (Fin q)
                /\ (q == c)%Q)
  /\ rsi14 (repeat (Fin c) 60) = Ok NaN.
Proof.
  split; [reflexivity|]. split.
  - destruct (fmean_repeat c 50) as (q & Hq & Hc); [lia|].
    exists q. split; [|exact Hc]. rewrite <- Hq. reflexivity.
  - assert (Qltb 0 (c + - c) = false) as Hgain.
    { apply Qltb_ge. rewrite Qplus_opp_r. apply Qle_refl. }
    assert (Qltb (c + - c) 0 = false) as Hloss.
    { apply Qltb_ge. rewrite Qplus_opp_r. apply Qle_refl. }
    unfold rsi14, gain14, loss14.
    cbn [repeat diff zip_with map where_ fsub fneg fadd fgt flt].
    rewrite Hgain, Hloss. vm_compute. reflexivity.
Qed.

Lemma col_Close_repeat (df : DataFrame) (c : Q) (n : nat) :
  map Close df = repeat c n -> col_Close df = repeat (Fin c) n.
Proof.
  intros H. unfold col_Close.
  rewrite <- (map_map Close Fin), H. apply map_repeat.
Qed.

(** C8.  For a gold frame of sixty equal closes the latest close equals the
    50-hour moving average, the comparison [>] is false, and the function
    takes the else branch: -2 and the bearish reason, ahead of what the
    other instruments contribute. *)
Theorem flat_gold_takes_else_branch (data : gmap string DataFrame)
    (df : DataFrame) (c : Q) (score : Z) (reasons : list string) :
  data !! key_gold = Some df ->
  map Close df = repeat c 60 ->
  calculate_signal (delete key_gold data) = Ok (score, reasons) ->
  (exists p ma, iloc (col_Close df) (-1) = Ok p
                /\ iloc (rolling_mean 50 (col_Close df)) (-1) = Ok ma
                /\ feq p ma /\ fgt p ma = false)
  /\ calculate_signal data = Ok (score - 2, reason_ma_bear :: reasons).
Proof.
  intros Hdf Hcol%col_Close_repeat Hrest.
  destruct (flat_gold_indicators c) as (Hp & (q & Hma & Hq) & Hrsi).
  assert (fgt (Fin c) (Fin q) = false) as Hgt.
  { apply Qltb_ge. rewrite Hq. apply Qle_refl. }
  split.
  - exists (Fin c), (Fin q). rewrite Hcol.
    split; [exact Hp|]. split; [exact Hma|]. split; [|exact Hgt].
    simpl. by symmetry.
  - replace (score - 2) with (fst (-2, [reason_ma_bear]) + fst (score, reasons))
      by (simpl; lia).
    apply (calculate_signal_gold_first data df (-2, [reason_ma_bear])
             (score, reasons) Hdf); [|exact Hrest].
    unfold gold_rules. rewrite Hcol, Hma, Hrsi.
    change (iloc (repeat (Fin c) 60) (-1)) with (Ok (Fin c)).
    simpl_result. by rewrite Hgt.
Qed.

Lemma flat_gold_takes_else_branch_witness :
  calculate_signal data_flat_gold = Ok (0 - 2, [reason_ma_bear]).
Proof.
  apply (flat_gold_takes_else_branch data_flat_gold (frame (repeat 1900%Q 60))
           1900 0 []); reflexivity.
Defined.

(** ** Only the 'Close' column is read *)

Lemma gold_rules_close (df1 df2 : DataFrame) (st : State) :
  col_Close df1 = col_Close df2 -> gold_rules df1 st = gold_rules df2 st.
Proof. intros H. unfold gold_rules. by rewrite H. Qed.

Lemma dxy_rules_close (df1 df2 : DataFrame) (st : State) :
  col_Close df1 = col_Close df2 -> dxy_rules df1 st = dxy_rules df2 st.
Proof.
  intros H. unfold dxy_rules.
  rewrite <- (length_col_Close df1), <- (length_col_Close df2). by rewrite H.
Qed.

Lemma vix_rules_close (df1 df2 : DataFrame) (st : State) :
  col_Close df1 = col_Close df2 -> vix_rules df1 st = vix_rules df2 st.
Proof. intros H. unfold vix_rules. by rewrite H. Qed.

Lemma when_present_close (data1 data2 : gmap string DataFrame) (key : string)
    (rules : DataFrame -> State -> result State) (st : State) :
  (forall df1 df2 st, col_Close df1 = col_Close df2 ->
                      rules df1 st = rules df2 st) ->
  col_Close <$> data1 = col_Close <$> data2 ->
  when_present data1 key rules st = when_present data2 key rules st.
Proof.
  intros Hrules Hdata. unfold when_present.
  assert (col_Close <$> data1 !! key = col_Close <$> data2 !! key) as Hkey
    by (by rewrite <- !lookup_fmap, Hdata).
  destruct (data1 !! key) as [df1|], (data2 !! key) as [df2|];
    simpl in Hkey; try done.
  apply Hrules. congruence.
Qed.

(** C10.  Two input maps with the same instruments present and the same
    'Close' column for each give the same score and the same reasons,
    whatever their other columns hold. *)
Theorem only_close_is_read (data1 data2 : gmap string DataFrame) :
  col_Close <$> data1 = col_Close <$> data2 ->
  calculate_signal data1 = calculate_signal data2.
Proof.
  intros H. unfold calculate_signal.
  rewrite (when_present_close data1 data2 key_gold gold_rules _ gold_rules_close H).
  destruct (when_present data2 key_gold gold_rules (0, [])) as [st1|];
    simpl_result; [|done].
  rewrite (when_present_close data1 data2 key_dxy dxy_rules _ dxy_rules_close H).
  destruct (when_present data2 key_dxy dxy_rules st1) as [st2|];
    simpl_result; [|done].
  by rewrite (when_present_close data1 data2 key_vix vix_rules _ vix_rules_close H).
Qed.

Lemma only_close_is_read_witness :
  col_Close <$> data_with_columns = col_Close <$> data_close_only
  /\ data_with_columns <> data_close_only
  /\ calculate_signal data_with_columns = calculate_signal data_close_only.
Proof.
  assert (col_Close <$> data_with_columns = col_Close <$> data_close_only)
    as Hclose by reflexivity.
  split; [exact Hclose|]. split.
  - intros Heq.
    assert (data_with_columns !! key_vix = data_close_only !! key_vix) as Hv
      by (by rewrite Heq).
    vm_compute in Hv. discriminate Hv.
  - exact (only_close_is_read _ _ Hclose).
Defined.

(** ** Fewer than fifty gold samples *)



(** C2, on the code.  On ten rising gold closes the 50-hour mean does not
    exist (it is NaN), the comparison [current_price > ma50] is false, and
    the function takes the else branch: it subtracts 2 and reports that
    gold is below its 50-hour moving average. *)
Theorem short_gold_fires_bearish :
  data_short_gold !! key_gold
  = Some (frame (Qs (map (fun n => 1900 + Z.of_nat n) (seq 0 10))))
  /\ iloc (rolling_mean 50
             (col_Close (frame (Qs (map (fun n => 1900 + Z.of_nat n) (seq 0 10))))))
          (-1) = Ok NaN
  /\ calculate_signal data_short_gold = Ok (-2, [reason_ma_bear]).
Proof. repeat split. Qed.

(** ** The lagged close of the dollar index *)

(** On a frame of exactly 25 rows the guard [len(dxy_df) > 24] holds and
    [iloc[-24]] is the second row, not the first. *)
Lemma dxy_lag_25 (s : Series) : length s = 25%nat -> iloc s (-24) = iloc s 1.
Proof. intros H. unfold iloc. rewrite H. reflexivity. Qed.

(** On a frame of at most 24 rows the first close is used, and then a
    latest close of 100 against a first close of 105 fires the weakening
    rule. *)
Lemma dxy_fallback_fires (df : DataFrame) (st : State) :
  (length df <= 24)%nat ->
  iloc (col_Close df) (-1) = Ok (Fin 100%Q) ->
  iloc (col_Close df) 0 = Ok (Fin 105%Q) ->
  dxy_rules df st = Ok (fire 2 reason_dxy_weak st).
Proof.
  intros Hlen Hnow Hfirst. unfold dxy_rules. rewrite Hnow. simpl_result.
  destruct (Nat.ltb_spec 24 (length df)); [lia|].
  rewrite Hfirst. reflexivity.
Qed.

(** C6, on the code.  The frame [dxy_25] has 25 rows, its latest close is
    100 and its first close is 105; the function compares the latest close
    with the second close, 90, and reports a strengthening dollar with a
    score of -2. *)
Theorem dxy_25_samples_strengthening :
  length dxy_25 = 25%nat
  /\ iloc (col_Close dxy_25) (-1) = Ok (Fin 100%Q)
  /\ iloc (col_Close dxy_25) 0 = Ok (Fin 105%Q)
  /\ iloc (col_Close dxy_25) (-24) = Ok (Fin 90%Q)
  /\ calculate_signal data_dxy_25 = Ok (-2, [reason_dxy_strong]).
Proof. repeat split. Qed.

(** ** The RSI when the average loss is zero *)

Lemma last_zip_with {A B C : Type} (f : A -> B -> C) (l : list A) (k : list B) :
  length l = length k ->
  last (zip_with f l k)
  = match last l, last k with
    | Some a, Some b => Some (f a b)
    | _, _ => None
    end.
Proof.
  intros Hlen. rewrite !last_lookup, lookup_zip_with, length_zip_with.
  rewrite <- Hlen, Nat.min_id.
  destruct (l !! Init.Nat.pred (length l)); [|done].
  by destruct (k !! Init.Nat.pred (length l)).
Qed.

(** The RSI is computed from the last entries of [gain] and [loss]. *)
Lemma rsi14_from_means (s : Series) (g l : float64) :
  iloc (gain14 s) (-1) = Ok g ->
  iloc (loss14 s) (-1) = Ok l ->
  rsi14 s
  = Ok (fsub (Fin 100%Q) (fdiv (Fin 100%Q) (fadd (Fin 1%Q) (fdiv g l)))).
Proof.
  rewrite !iloc_last. intros Hg Hl. unfold rsi14.
  rewrite iloc_last.
  rewrite (fmap_last (fun r => fdiv (Fin 100%Q) (fadd (Fin 1%Q) r))).
  rewrite last_zip_with by (by rewrite length_gain14, length_loss14).
  destruct (last (gain14 s)); [|done].
  destruct (last (loss14 s)); [|done].
  by injection Hg as ->; injection Hl as ->.
Qed.

(** C3, as the claim states it, fails: over fifteen equal closes the two
    14-sample means are both zero and the computed RSI is NaN, not 50. *)
Lemma rsi_flat_counterexample :
  (15 <= length (col_Close gold_flat_15))%nat
  /\ (exists g l, iloc (gain14 (col_Close gold_flat_15)) (-1) = Ok g
                  /\ iloc (loss14 (col_Close gold_flat_15)) (-1) = Ok l
                  /\ feq g (Fin 0%Q) /\ feq l (Fin 0%Q))
  /\ rsi14 (col_Close gold_flat_15) = Ok NaN
  /\ ~ feq NaN (Fin 50%Q).
Proof.
  split; [vm_compute; lia|]. split.
  - exists (Fin (0 # 14)), (Fin (0 # 14)). by vm_compute.
  - split; [by vm_compute | simpl; tauto].
Qed.

(** C3, amended.  There is no branch for a zero average loss; the division
    [gain / loss] decides.  When the last 14-sample mean of the losses is 0
    and that of the gains is positive, the quotient is infinite and the
    computed RSI equals 100.  When both are 0, the quotient is 0/0, the
    computed RSI is NaN, and neither RSI rule reports. *)
Theorem rsi_zero_average_loss (data : gmap string DataFrame) (df : DataFrame)
    (g l : float64) :
  data !! key_gold = Some df ->
  iloc (gain14 (col_Close df)) (-1) = Ok g ->
  iloc (loss14 (col_Close df)) (-1) = Ok l ->
  feq l (Fin 0%Q) ->
  (flt (Fin 0%Q) g = true ->
   exists r, rsi14 (col_Close df) = Ok r /\ feq r (Fin 100%Q))
  /\ (feq g (Fin 0%Q) ->
      rsi14 (col_Close df) = Ok NaN
      /\ forall score reasons,
           calculate_signal data = Ok (score, reasons) ->
           (reason_rsi_oversold ∉ reasons) /\ (reason_rsi_overbought ∉ reasons)).
Proof.
  intros Hdf Hg Hl Hzero.
  pose proof (rsi14_from_means _ _ _ Hg Hl) as Hrsi.
  destruct l as [l0| | |]; try done. simpl in Hzero.
  apply Qeq_alt in Hzero as Hcmp.
  assert (Qltb l0 0 = false) as Hnonneg.
  { apply Qltb_ge. rewrite Hzero. apply Qle_refl. }
  split.
  - intros Hpos. eexists. split; [exact Hrsi|].
    destruct g as [g0| | |]; try done; simpl in Hpos.
    + apply Qltb_lt, Qgt_alt in Hpos. cbn [fdiv]. rewrite Hcmp, Hpos. done.
    + cbn [fdiv]. rewrite Hnonneg. done.
  - intros Hflat. destruct g as [g0| | |]; try done. simpl in Hflat.
    apply Qeq_alt in Hflat.
    assert (rsi14 (col_Close df) = Ok NaN) as Hnan.
    { rewrite Hrsi. cbn [fdiv]. by rewrite Hcmp, Hflat. }
    split; [exact Hnan|].
    intros score reasons [= -> ->]%calculate_signal_fired.
    rewrite (reason_reported_iff data RsiOversold),
      (reason_reported_iff data RsiOverbought).
    cbn [precondition]. unfold gold_indicators. rewrite Hdf, Hnan.
    destruct (iloc (col_Close df) (-1)); [|done].
    by destruct (iloc (rolling_mean 50 (col_Close df)) (-1)).
Qed.

Lemma rsi_zero_average_loss_witness :
  (exists r, rsi14 (col_Close gold_rising_15) = Ok r /\ feq r (Fin 100%Q))
  /\ rsi14 (col_Close gold_rise_then_flat) = Ok NaN
  /\ calculate_signal {[ key_gold := gold_rise_then_flat ]}
     = Ok (2, [reason_ma_bull]).
Proof.
  split; [|split].
  - apply (rsi_zero_average_loss {[ key_gold := gold_rising_15 ]}
             gold_rising_15 (Fin (14 # 14)) (Fin (0 # 14))); reflexivity.
  - apply (rsi_zero_average_loss {[ key_gold := gold_rise_then_flat ]}
             gold_rise_then_flat (Fin (0 # 14)) (Fin (0 # 14))); reflexivity.
  - reflexivity.
Defined.

(** * Further properties of the engine *)

(** ** Instruments the engine does not read *)

(** X1.  A frame stored under any other key than the three the function reads
    changes nothing: in particular the 10-year yield and the S&P 500, which
    [get_financial_data] downloads, have no influence on the signal. *)
Theorem unread_key_has_no_influence (data : gmap string DataFrame)
    (k : string) (df : DataFrame) :
  k <> key_gold -> k <> key_dxy -> k <> key_vix ->
  calculate_signal (<[k := df]> data) = calculate_signal data
  /\ calculate_signal (delete k data) = calculate_signal data.
Proof.
  intros Hg Hd Hv. unfold calculate_signal, when_present.
  by rewrite !lookup_insert_ne, !lookup_delete_ne.
Qed.

Lemma unread_key_has_no_influence_witness :
  calculate_signal (<[key_tnx := frame [4%Q; 5%Q]]> data_all_bullish)
  = calculate_signal data_all_bullish
  /\ calculate_signal (delete key_spx data_all_bullish)
     = calculate_signal data_all_bullish.
Proof.
  split.
  - apply (unread_key_has_no_influence data_all_bullish key_tnx
             (frame [4%Q; 5%Q])); discriminate.
  - apply (unread_key_has_no_influence data_all_bullish key_spx []);
      discriminate.
Defined.

(** ** The signal is the sum of the three instruments' signals *)

Lemma calculate_signal_only_gold (data : gmap string DataFrame) :
  calculate_signal (only key_gold data)
  = when_present data key_gold gold_rules (0, []).
Proof.
  destruct keys_distinct as (Hgd & Hgv & _).
  unfold only, calculate_signal, when_present.
  destruct (data !! key_gold) as [g|].
  - rewrite lookup_singleton_eq, !lookup_singleton_ne by done.
    by destruct (gold_rules g (0, [])).
  - by rewrite !lookup_empty.
Qed.

Lemma calculate_signal_only_dxy (data : gmap string DataFrame) :
  calculate_signal (only key_dxy data)
  = when_present data key_dxy dxy_rules (0, []).
Proof.
  destruct keys_distinct as (Hgd & _ & Hdv).
  unfold only, calculate_signal, when_present.
  destruct (data !! key_dxy) as [d|].
  - rewrite lookup_singleton_eq, !lookup_singleton_ne
      by (done || by apply not_eq_sym).
    simpl_result. by destruct (dxy_rules d (0, [])).
  - by rewrite !lookup_empty.
Qed.

Lemma calculate_signal_only_vix (data : gmap string DataFrame) :
  calculate_signal (only key_vix data)
  = when_present data key_vix vix_rules (0, []).
Proof.
  destruct keys_distinct as (_ & Hgv & Hdv).
  unfold only, calculate_signal, when_present.
  destruct (data !! key_vix) as [v|].
  - rewrite lookup_singleton_eq, !lookup_singleton_ne by (by apply not_eq_sym).
    simpl_result. by destruct (vix_rules v (0, [])).
  - by rewrite !lookup_empty.
Qed.

(** X2.  Whenever the function returns, it returns on the frame of each
    instrument alone, the score is the sum of the three scores and the list
    of reasons is the three lists one after the other: gold, dollar index,
    VIX. *)
Theorem signal_is_sum_of_instruments (data : gmap string DataFrame)
    (score : Z) (reasons : list string) :
  calculate_signal data = Ok (score, reasons) ->
  exists g d v : State,
    calculate_signal (only key_gold data) = Ok g
    /\ calculate_signal (only key_dxy data) = Ok d
    /\ calculate_signal (only key_vix data) = Ok v
    /\ score = fst g + fst d + fst v
    /\ reasons = snd g ++ snd d ++ snd v.
Proof.
  rewrite calculate_signal_only_gold, calculate_signal_only_dxy,
    calculate_signal_only_vix.
  unfold calculate_signal.
  destruct (when_present data key_gold gold_rules (0, [])) as [g|];
    simpl_result; [|done].
  rewrite (when_present_shifts data key_dxy dxy_rules g dxy_rules_shifts).
  destruct (when_present data key_dxy dxy_rules (0, [])) as [d|];
    simpl_result; [|done].
  rewrite (when_present_shifts data key_vix vix_rules
             (fst g + fst d, snd g ++ snd d) vix_rules_shifts).
  destruct (when_present data key_vix vix_rules (0, [])) as [v|];
    simpl_result; [|done].
  intros [= <- <-]. exists g, d, v. cbn [fst snd].
  by rewrite app_assoc.
Qed.

Lemma signal_is_sum_of_instruments_witness :
  exists g d v : State,
    calculate_signal (only key_gold data_all_bearish) = Ok g
    /\ calculate_signal (only key_dxy data_all_bearish) = Ok d
    /\ calculate_signal (only key_vix data_all_bearish) = Ok v
    /\ -6 = fst g + fst d + fst v
    /\ [reason_ma_bear; reason_rsi_overbought; reason_dxy_strong; reason_vix_calm]
       = snd g ++ snd d ++ snd v.
Proof.
  apply (signal_is_sum_of_instruments data_all_bearish).
  vm_compute. reflexivity.
Defined.

(** ** Which reasons can be reported *)

(** X3.  An instrument that is missing from the input reports nothing: none of
    its reasons is in the list. *)
Theorem missing_instrument_reports_nothing (data : gmap string DataFrame)
    (score : Z) (reasons : list string) :
  calculate_signal data = Ok (score, reasons) ->
  (data !! key_gold = None ->
   Forall (fun r => r ∉ reasons)
     [reason_ma_bull; reason_ma_bear; reason_rsi_oversold; reason_rsi_overbought])
  /\ (data !! key_dxy = None ->
      Forall (fun r => r ∉ reasons) [reason_dxy_weak; reason_dxy_strong])
  /\ (data !! key_vix = None ->
      Forall (fun r => r ∉ reasons) [reason_vix_fear; reason_vix_calm]).
Proof.
  intros [= -> ->]%calculate_signal_fired.
  split; [|split]; intros Hnone; repeat apply Forall_cons_2; try apply Forall_nil_2.
  - rewrite (reason_reported_iff data MaBull). cbn [precondition].
    unfold gold_indicators. by rewrite Hnone.
  - rewrite (reason_reported_iff data MaBear). cbn [precondition].
    unfold gold_indicators. by rewrite Hnone.
  - rewrite (reason_reported_iff data RsiOversold). cbn [precondition].
    unfold gold_indicators. by rewrite Hnone.
  - rewrite (reason_reported_iff data RsiOverbought). cbn [precondition].
    unfold gold_indicators. by rewrite Hnone.
  - rewrite (reason_reported_iff data DxyWeak). cbn [precondition].
    unfold dxy_indicators. by rewrite Hnone.
  - rewrite (reason_reported_iff data DxyStrong). cbn [precondition].
    unfold dxy_indicators. by rewrite Hnone.
  - rewrite (reason_reported_iff data VixFear). cbn [precondition].
    unfold vix_indicator. by rewrite Hnone.
  - rewrite (reason_reported_iff data VixCalm). cbn [precondition].
    unfold vix_indicator. by rewrite Hnone.
Qed.

Lemma missing_instrument_reports_nothing_witness :
  Forall (fun r => r ∉ [reason_vix_fear])
    [reason_ma_bull; reason_ma_bear; reason_rsi_oversold; reason_rsi_overbought]
  /\ Forall (fun r => r ∉ [reason_vix_fear]) [reason_dxy_weak; reason_dxy_strong]
  /\ Forall (fun r => r ∉ [reason_dxy_strong]) [reason_vix_fear; reason_vix_calm].
Proof.
  split; [|split].
  - apply (missing_instrument_reports_nothing (data_vix 25) 2 [reason_vix_fear]);
      reflexivity.
  - apply (missing_instrument_reports_nothing (data_vix 25) 2 [reason_vix_fear]);
      reflexivity.
  - apply (missing_instrument_reports_nothing data_dxy_25 (-2) [reason_dxy_strong]);
      reflexivity.
Defined.

(** When the function returns on a frame that is present, the indicators of
    that frame were all read. *)
Lemma returned_gold_indicators (data : gmap string DataFrame) (df : DataFrame)
    (st : State) :
  calculate_signal data = Ok st -> data !! key_gold = Some df ->
  exists p ma rsi, gold_indicators data = Some (p, ma, rsi).
Proof.
  intros Hrun Hdf. unfold gold_indicators. rewrite Hdf.
  unfold calculate_signal, when_present, gold_rules in Hrun.
  rewrite Hdf in Hrun.
  destruct (iloc (col_Close df) (-1)); [|done].
  destruct (iloc (rolling_mean 50 (col_Close df)) (-1)); [|done].
  destruct (rsi14 (col_Close df)); [|done].
  eauto.
Qed.

Lemma returned_dxy_indicators (data : gmap string DataFrame) (df : DataFrame)
    (st : State) :
  calculate_signal data = Ok st -> data !! key_dxy = Some df ->
  exists now prev, dxy_indicators data = Some (now, prev).
Proof.
  intros Hrun Hdf. unfold dxy_indicators. rewrite Hdf.
  revert Hrun. unfold calculate_signal.
  destruct (when_present data key_gold gold_rules (0, [])) as [st1|];
    simpl_result; [|done].
  unfold when_present, dxy_rules. rewrite Hdf.
  destruct (iloc (col_Close df) (-1)); simpl_result; [|done].
  destruct (if (24 <? length df)%nat
            then iloc (col_Close df) (-24) else iloc (col_Close df) 0);
    [|done].
  eauto.
Qed.

(** X4.  A frame that is present always reports one side of its if/else pair:
    with the gold frame present exactly one of the two moving-average
    reasons is in the list, and with the dollar-index frame present exactly
    one of the two dollar reasons is. *)
Theorem present_instrument_reports_one_side (data : gmap string DataFrame)
    (score : Z) (reasons : list string) :
  calculate_signal data = Ok (score, reasons) ->
  (is_Some (data !! key_gold) ->
   (reason_ma_bull ∈ reasons /\ reason_ma_bear ∉ reasons)
   \/ ((reason_ma_bull ∉ reasons) /\ reason_ma_bear ∈ reasons))
  /\ (is_Some (data !! key_dxy) ->
      (reason_dxy_weak ∈ reasons /\ reason_dxy_strong ∉ reasons)
      \/ ((reason_dxy_weak ∉ reasons) /\ reason_dxy_strong ∈ reasons)).
Proof.
  intros Hrun. pose proof Hrun as [= -> ->]%calculate_signal_fired.
  split; intros [df Hdf].
  - destruct (returned_gold_indicators _ _ _ Hrun Hdf) as (p & ma & rsi & Hind).
    rewrite (reason_reported_iff data MaBull), (reason_reported_iff data MaBear).
    cbn [precondition]. rewrite Hind.
    destruct (fgt p ma); simpl; [left | right]; split; congruence.
  - destruct (returned_dxy_indicators _ _ _ Hrun Hdf) as (now & prev & Hind).
    rewrite (reason_reported_iff data DxyWeak), (reason_reported_iff data DxyStrong).
    cbn [precondition]. rewrite Hind.
    destruct (flt now prev); simpl; [left | right]; split; congruence.
Qed.

Lemma present_instrument_reports_one_side_witness :
  ((reason_ma_bull ∈ [reason_ma_bull; reason_rsi_oversold; reason_dxy_weak;
                      reason_vix_fear]
    /\ reason_ma_bear ∉ [reason_ma_bull; reason_rsi_oversold; reason_dxy_weak;
                         reason_vix_fear])
   \/ ((reason_ma_bull ∉ [reason_ma_bull; reason_rsi_oversold; reason_dxy_weak;
                          reason_vix_fear])
       /\ reason_ma_bear ∈ [reason_ma_bull; reason_rsi_oversold; reason_dxy_weak;
                            reason_vix_fear]))
  /\ ((reason_dxy_weak ∈ [reason_dxy_strong]
       /\ reason_dxy_strong ∉ [reason_dxy_strong])
      \/ ((reason_dxy_weak ∉ [reason_dxy_strong])
          /\ reason_dxy_strong ∈ [reason_dxy_strong])).
Proof.
  split.
  - apply (present_instrument_reports_one_side data_all_bullish 7);
      [reflexivity | eexists; reflexivity].
  - apply (present_instrument_reports_one_side data_dxy_25 (-2));
      [reflexivity | eexists; reflexivity].
Defined.

(** The four pairs of rules exclude each other. *)
Lemma preconditions_exclusive (data : gmap string DataFrame) :
  precondition data MaBull && precondition data MaBear = false
  /\ precondition data RsiOversold && precondition data RsiOverbought = false
  /\ precondition data DxyWeak && precondition data DxyStrong = false
  /\ precondition data VixFear && precondition data VixCalm = false.
Proof.
  cbn [precondition]. repeat split.
  - destruct (gold_indicators data) as [[[p ma] rsi]|]; [|done].
    by destruct (fgt p ma).
  - destruct (gold_indicators data) as [[[p ma] rsi]|]; [|done].
    destruct (flt rsi (Fin 30%Q)) eqn:H; [|done].
    by rewrite (rsi_thresholds_exclusive _ H).
  - destruct (dxy_indicators data) as [[now prev]|]; [|done].
    by destruct (flt now prev).
  - destruct (vix_indicator data) as [v|]; [|done].
    destruct (fgt v (Fin 20%Q)) eqn:H; [|done].
    by rewrite (vix_thresholds_exclusive _ H).
Qed.

Ltac split_preconditions data :=
  pose proof (preconditions_exclusive data) as (Hx1 & Hx2 & Hx3 & Hx4);
  unfold fired, rule_table; cbn [List.filter];
  destruct (precondition data MaBull), (precondition data MaBear);
  try discriminate Hx1;
  destruct (precondition data RsiOversold), (precondition data RsiOverbought);
  try discriminate Hx2;
  destruct (precondition data DxyWeak), (precondition data DxyStrong);
  try discriminate Hx3;
  destruct (precondition data VixFear), (precondition data VixCalm);
  try discriminate Hx4.

(** X5.  The list of reasons has at most four entries, one per pair of rules at
    most, and no reason twice. *)
Theorem at_most_four_reasons (data : gmap string DataFrame)
    (score : Z) (reasons : list string) :
  calculate_signal data = Ok (score, reasons) ->
  (length reasons <= 4)%nat /\ NoDup reasons.
Proof.
  intros [= -> ->]%calculate_signal_fired.
  split_preconditions data.
  all: split; [vm_compute; lia | apply (bool_decide_unpack _); by vm_compute].
Qed.

Lemma at_most_four_reasons_witness :
  (length [reason_ma_bull; reason_rsi_oversold; reason_dxy_weak; reason_vix_fear]
   <= 4)%nat
  /\ NoDup [reason_ma_bull; reason_rsi_oversold; reason_dxy_weak; reason_vix_fear].
Proof.
  apply (at_most_four_reasons data_all_bullish 7). reflexivity.
Defined.


(** ** The RSI *)

(** Until a rolling window is full, the last entry of its mean is NaN. *)
Lemma rolling_mean_short (w : nat) (s : Series) :
  s <> [] -> (length s < w)%nat -> iloc (rolling_mean w s) (-1) = Ok NaN.
Proof.
  intros Hs Hlen. rewrite iloc_last. unfold rolling_mean.
  destruct s as [|x s]; [done|].
  rewrite (fmap_last _ (seq 0 (length (x :: s)))).
  rewrite last_lookup, length_seq. cbn [length Init.Nat.pred].
  rewrite lookup_seq_lt by lia. cbn [fmap option_fmap option_map].
  destruct (Nat.ltb_spec (S (0 + length s)) w); [done|].
  simpl in Hlen. lia.
Qed.

Lemma short_series_rsi_nan (s : Series) :
  s <> [] -> (length s < 14)%nat -> rsi14 s = Ok NaN.
Proof.
  intros Hs Hlen.
  assert (diff s <> []) as Hd by (by destruct s).
  rewrite (rsi14_from_means s NaN NaN); [done| |].
  - unfold gain14. apply rolling_mean_short.
    + intros H%(f_equal length). rewrite length_where, length_diff in H.
      by destruct s.
    + by rewrite length_where, length_diff.
  - unfold loss14. apply rolling_mean_short.
    + intros H%(f_equal length).
      rewrite length_map, length_where, length_diff in H. by destruct s.
    + by rewrite length_map, length_where, length_diff.
Qed.

(** X7.  With fewer than fourteen gold samples the 14-sample means do not exist,
    the RSI is NaN and neither RSI rule reports. *)
Theorem short_gold_has_no_rsi (data : gmap string DataFrame) (df : DataFrame)
    (score : Z) (reasons : list string) :
  data !! key_gold = Some df ->
  (length df < 14)%nat ->
  calculate_signal data = Ok (score, reasons) ->
  rsi14 (col_Close df) = Ok NaN
  /\ (reason_rsi_oversold ∉ reasons) /\ (reason_rsi_overbought ∉ reasons).
Proof.
  intros Hdf Hlen Hrun.
  assert (df <> []) as Hne.
  { intros ->. unfold calculate_signal, when_present in Hrun.
    rewrite Hdf in Hrun. discriminate Hrun. }
  assert (rsi14 (col_Close df) = Ok NaN) as Hnan.
  { apply short_series_rsi_nan; [by apply col_Close_nonempty|].
    by rewrite length_col_Close. }
  split; [exact Hnan|].
  destruct (returned_gold_indicators _ _ _ Hrun Hdf) as (p & ma & rsi & Hind).
  apply calculate_signal_fired in Hrun as [= -> ->].
  rewrite (reason_reported_iff data RsiOversold),
    (reason_reported_iff data RsiOverbought).
  cbn [precondition]. rewrite Hind.
  unfold gold_indicators in Hind. rewrite Hdf, Hnan in Hind.
  destruct (iloc (col_Close df) (-1)); [|done].
  destruct (iloc (rolling_mean 50 (col_Close df)) (-1)); [|done].
  by injection Hind as _ _ <-.
Qed.

Lemma short_gold_has_no_rsi_witness :
  rsi14 (col_Close (frame (Qs (map (fun n => 1900 + Z.of_nat n) (seq 0 10)))))
  = Ok NaN
  /\ (reason_rsi_oversold ∉ [reason_ma_bear])
  /\ (reason_rsi_overbought ∉ [reason_ma_bear]).
Proof.
  apply (short_gold_has_no_rsi data_short_gold
           (frame (Qs (map (fun n => 1900 + Z.of_nat n) (seq 0 10)))) (-2));
    [reflexivity | vm_compute; lia | reflexivity].
Defined.

(** *** The range of the RSI *)

Lemma where_map (s : Series) (f : float64 -> bool) (other : float64) :
  where_ s (map f s) other = map (fun x => if f x then x else other) s.
Proof.
  unfold where_. induction s as [|x s IH]; simpl; [done|]. by rewrite IH.
Qed.

(** The upward moves are never negative, and neither are the downward
    moves after the change of sign. *)
Lemma gain_entry_nonneg (d : float64) :
  nonneg (if fgt d (Fin 0%Q) then d else Fin 0%Q).
Proof.
  destruct d as [q| | |]; simpl; try done.
  destruct (Qltb 0 q) eqn:H; simpl; [|done].
  apply Qltb_lt in H. by apply Qlt_le_weak.
Qed.

Lemma loss_entry_nonneg (d : float64) :
  nonneg (fneg (if flt d (Fin 0%Q) then d else Fin 0%Q)).
Proof.
  destruct d as [q| | |]; simpl; try done.
  destruct (Qltb q 0) eqn:H; simpl; [|done].
  apply Qltb_lt in H. lra.
Qed.

Lemma fadd_nonneg (x y : float64) : nonneg x -> nonneg y -> nonneg (fadd x y).
Proof. destruct x, y; simpl; try done. intros. lra. Qed.

Lemma fsum_nonneg (l : list float64) (acc : float64) :
  Forall nonneg l -> nonneg acc -> nonneg (fold_left fadd l acc).
Proof.
  intros Hl. revert acc. induction Hl as [|x l Hx Hl IH]; intros acc Hacc.
  - done.
  - simpl. apply IH. by apply fadd_nonneg.
Qed.

Lemma fmean_nonneg (l : list float64) :
  Forall nonneg l -> fmean l = NaN \/ nonneg (fmean l).
Proof.
  intros Hl. unfold fmean, fsum.
  pose proof (fsum_nonneg l (Fin 0%Q) Hl (Qle_refl 0)) as Hsum.
  set (n := inject_Z (Z.of_nat (length l))).
  assert (0 <= n)%Q as Hn.
  { subst n. change 0%Q with (inject_Z 0). rewrite <- Zle_Qle. lia. }
  destruct (fold_left fadd l (Fin 0%Q)) as [a| | |]; simpl in Hsum; try done.
  - unfold fdiv. destruct (n ?= 0)%Q eqn:Hcmp.
    + destruct (a ?= 0)%Q eqn:Ha; [by left | | by right].
      apply Qlt_alt in Ha. lra.
    + apply Qlt_alt in Hcmp. lra.
    + right. simpl. apply Qgt_alt in Hcmp.
      apply Qle_shift_div_l; [done|]. lra.
  - right. unfold fdiv.
    assert (Qltb n 0 = false) as -> by (by apply Qltb_ge). done.
Qed.

Lemma rolling_mean_nonneg (w : nat) (l : list float64) :
  Forall nonneg l ->
  Forall (fun x => x = NaN \/ nonneg x) (rolling_mean w l).
Proof.
  intros Hl. unfold rolling_mean. apply Forall_forall.
  intros x (i & <- & _)%list_elem_of_In%in_map_iff.
  destruct (S i <? w)%nat; [by left|].
  apply fmean_nonneg. by apply Forall_take, Forall_drop.
Qed.

Lemma gain14_nonneg (s : Series) :
  Forall (fun x => x = NaN \/ nonneg x) (gain14 s).
Proof.
  unfold gain14. apply rolling_mean_nonneg. rewrite where_map.
  apply Forall_forall. intros x (d & <- & _)%list_elem_of_In%in_map_iff.
  apply gain_entry_nonneg.
Qed.

Lemma loss14_nonneg (s : Series) :
  Forall (fun x => x = NaN \/ nonneg x) (loss14 s).
Proof.
  unfold loss14. apply rolling_mean_nonneg. rewrite where_map, map_map.
  apply Forall_forall. intros x (d & <- & _)%list_elem_of_In%in_map_iff.
  apply loss_entry_nonneg.
Qed.

Lemma iloc_elem_of (s : Series) (i : Z) (x : float64) :
  iloc s i = Ok x -> x ∈ s.
Proof.
  unfold iloc.
  destruct ((0 <=? _) && _); [|done].
  destruct (s !! _) eqn:H; [|done].
  intros [= <-]. by eapply list_elem_of_lookup_2.
Qed.

(** From two means that are not negative the formula gives NaN or a value
    between 0 and 100. *)
Lemma rsi_formula_range (g l : float64) :
  g = NaN \/ nonneg g -> l = NaN \/ nonneg l ->
  let r := fsub (Fin 100%Q) (fdiv (Fin 100%Q) (fadd (Fin 1%Q) (fdiv g l))) in
  r = NaN \/ exists q, r = Fin q /\ (0 <= q <= 100)%Q.
Proof.
  intros [->|Hg]; [by left|]. intros [->|Hl]; [left; by destruct g|].
  destruct g as [a| | |], l as [b| | |]; simpl in Hg, Hl; try done.
  - (* two finite means *)
    cbn [fdiv]. destruct (b ?= 0)%Q eqn:Hb.
    + destruct (a ?= 0)%Q eqn:Ha; [by left | |];
        right; eexists; (split; [reflexivity|]); split; by vm_compute.
    + apply Qlt_alt in Hb. lra.
    + apply Qgt_alt in Hb.
      assert (0 <= a / b)%Q as Hrs by (apply Qle_shift_div_l; [done|lra]).
      cbn [fadd fdiv]. set (t := (1 + a / b)%Q) in *.
      assert (1 <= t)%Q as Ht by (subst t; lra).
      assert ((t ?= 0)%Q = Gt) as -> by (apply Qgt_alt; lra).
      right. eexists. split; [reflexivity|].
      assert (0 <= 100 / t)%Q as H0 by (apply Qle_shift_div_l; lra).
      assert (100 / t <= 100)%Q as H1 by (apply Qle_shift_div_r; lra).
      lra.
  - (* a finite gain over an infinite loss *)
    right. eexists. split; [reflexivity|]. split; by vm_compute.
  - (* an infinite gain over a finite loss *)
    cbn [fdiv]. destruct (Qltb b 0);
      right; eexists; (split; [reflexivity|]); split; by vm_compute.
  - by left.
Qed.

(** X8.  Whenever the RSI is computed, it is NaN or lies between 0 and 100. *)
Theorem rsi_in_range (s : Series) (r : float64) :
  rsi14 s = Ok r ->
  r = NaN \/ exists q, r = Fin q /\ (0 <= q <= 100)%Q.
Proof.
  intros Hr.
  assert (s <> []) as Hs by (intros ->; discriminate Hr).
  destruct (iloc_in_range (gain14 s) (-1)) as [g Hg];
    [rewrite length_gain14; by apply nonempty_in_range|].
  destruct (iloc_in_range (loss14 s) (-1)) as [l Hl];
    [rewrite length_loss14; by apply nonempty_in_range|].
  rewrite (rsi14_from_means s g l Hg Hl) in Hr. injection Hr as <-.
  apply rsi_formula_range.
  - pose proof (gain14_nonneg s) as H. rewrite Forall_forall in H.
    apply H. by eapply iloc_elem_of.
  - pose proof (loss14_nonneg s) as H. rewrite Forall_forall in H.
    apply H. by eapply iloc_elem_of.
Qed.

Lemma rsi_in_range_witness :
  Fin (9800 # 196) = NaN
  \/ exists q, Fin (9800 # 196) = Fin q /\ (0 <= q <= 100)%Q.
Proof.
  apply (rsi_in_range
           (col_Close (frame (Qs [10; 11; 10; 11; 10; 11; 10; 11; 10; 11; 10;
                                  11; 10; 11; 10])))).
  vm_compute. reflexivity.
Defined.

(** ** The dollar index on a single row *)

(** X11.  On a dollar-index frame of one row the latest close is compared with
    itself, [<] is false, and the strengthening reason is reported. *)
Theorem single_row_dxy_reports_strengthening (data : gmap string DataFrame)
    (row : Row) (score : Z) (reasons : list string) :
  data !! key_dxy = Some ([row] : DataFrame) ->
  calculate_signal data = Ok (score, reasons) ->
  reason_dxy_strong ∈ reasons /\ (reason_dxy_weak ∉ reasons).
Proof.
  intros Hdf [= -> ->]%calculate_signal_fired.
  rewrite (reason_reported_iff data DxyStrong),
    (reason_reported_iff data DxyWeak).
  cbn [precondition]. unfold dxy_indicators. rewrite Hdf.
  change (iloc (col_Close [row]) (-1)) with (Ok (Fin (Close row))).
  change (if (24 <? length [row])%nat
          then iloc (col_Close [row]) (-24) else iloc (col_Close [row]) 0)
    with (Ok (Fin (Close row))).
  cbv beta iota.
  assert (flt (Fin (Close row)) (Fin (Close row)) = false) as ->
    by (apply Qltb_ge, Qle_refl).
  done.
Qed.

Lemma single_row_dxy_reports_strengthening_witness :
  reason_dxy_strong ∈ [reason_dxy_strong]
  /\ (reason_dxy_weak ∉ [reason_dxy_strong]).
Proof.
  apply (single_row_dxy_reports_strengthening
           {[ key_dxy := frame [104%Q] ]} (mkRow 104 []) (-2));
    reflexivity.
Defined.

(** ** The advice and the reasons behind it *)

(** X12.  A strong advice is never backed by a single rule: when the score makes
    the page advise a strong buy, at least two of the four bullish reasons
    are in the list, and when it advises to sell, at least two of the four
    bearish ones are. *)
Theorem strong_advice_has_two_reasons (data : gmap string DataFrame)
    (score : Z) (reasons : list string) :
  calculate_signal data = Ok (score, reasons) ->
  (advise score = StrongBuy ->
   (2 <= count_reported bullish_reasons reasons)%nat)
  /\ (advise score = StrongSell ->
      (2 <= count_reported bearish_reasons reasons)%nat).
Proof.
  intros [= -> ->]%calculate_signal_fired.
  split_preconditions data.
  all: vm_compute; split; intros H; try discriminate H; lia.
Qed.

Lemma strong_advice_has_two_reasons_witness :
  (2 <= count_reported bullish_reasons
          [reason_ma_bull; reason_rsi_oversold; reason_dxy_weak; reason_vix_fear])%nat
  /\ (2 <= count_reported bearish_reasons
             [reason_ma_bear; reason_rsi_overbought; reason_dxy_strong;
              reason_vix_calm])%nat.
Proof.
  split.
  - apply (strong_advice_has_two_reasons data_all_bullish 7); reflexivity.
  - apply (strong_advice_has_two_reasons data_all_bearish (-6)); reflexivity.
Defined.

(** * get_financial_data *)

(** One turn of the loop of lines 24-31. *)
Local Abbreviation store_step download :=
  (fun (data_store : gmap string DataFrame) (t : string * string) =>
     match download (snd t) with
     | Some df =>
         if negb (empty_frame df) then <[fst t := df]> data_store
         else data_store
     | None => data_store
     end).

Lemma store_step_lookup (download : string -> option DataFrame)
    (acc : gmap string DataFrame) (t : string * string) (k : string) :
  store_step download acc t !! k
  = if decide (fst t = k)
    then match stored download (snd t) with
         | Some df => Some df
         | None => acc !! k
         end
    else acc !! k.
Proof.
  unfold stored. cbv beta.
  destruct (download (snd t)) as [df|]; [|by case_decide].
  destruct (negb (empty_frame df)); [|by case_decide].
  apply lookup_insert.
Qed.

(** A key that no remaining ticker uses keeps what the store holds for it. *)
Lemma store_fold_other (download : string -> option DataFrame)
    (l : list (string * string)) (acc : gmap string DataFrame) (k : string) :
  k ∉ map fst l ->
  fold_left (store_step download) l acc !! k = acc !! k.
Proof.
  revert acc. induction l as [|t l IH]; intros acc Hk; [done|].
  cbn [map] in Hk. apply not_elem_of_cons in Hk as [Hne Hk].
  cbn [fold_left]. rewrite IH by done.
  rewrite store_step_lookup. case_decide; [congruence | done].
Qed.

Lemma store_fold_ticker (download : string -> option DataFrame)
    (l : list (string * string)) (acc : gmap string DataFrame)
    (name symbol : string) :
  NoDup (map fst l) -> (name, symbol) ∈ l ->
  fold_left (store_step download) l acc !! name
  = match stored download symbol with
    | Some df => Some df
    | None => acc !! name
    end.
Proof.
  revert acc. induction l as [|t l IH]; intros acc Hnd Hin.
  - by apply elem_of_nil in Hin.
  - cbn [map] in Hnd. apply NoDup_cons in Hnd as [Hfresh Hnd].
    cbn [fold_left]. apply elem_of_cons in Hin as [<-|Hin].
    + rewrite store_fold_other by done.
      rewrite store_step_lookup. cbn [fst snd]. by case_decide.
    + rewrite IH by done.
      destruct (stored download symbol); [done|].
      rewrite store_step_lookup. case_decide as Heq; [|done].
      exfalso. apply Hfresh. rewrite Heq.
      apply (list_elem_of_fmap_2 fst l (name, symbol) Hin).
Qed.

Lemma tickers_distinct : NoDup (map fst tickers).
Proof. apply (bool_decide_unpack _). by vm_compute. Qed.

Lemma store_lookup_ticker (download : string -> option DataFrame)
    (name symbol : string) :
  (name, symbol) ∈ tickers ->
  get_financial_data download !! name = stored download symbol.
Proof.
  intros Hin. unfold get_financial_data.
  rewrite (store_fold_ticker download tickers ∅ name symbol tickers_distinct Hin).
  rewrite lookup_empty. by destruct (stored download symbol).
Qed.

(** X13.  The store holds, under the name of each of the five tickers, the frame
    its download returned, unless the download raised or returned no rows;
    it holds nothing under any other key. *)
Theorem store_holds_the_usable_downloads (download : string -> option DataFrame) :
  (forall name symbol, (name, symbol) ∈ tickers ->
     get_financial_data download !! name = stored download symbol)
  /\ (forall k, k ∉ map fst tickers ->
        get_financial_data download !! k = None).
Proof.
  split.
  - apply store_lookup_ticker.
  - intros k Hk. unfold get_financial_data.
    rewrite store_fold_other by done. apply lookup_empty.
Qed.

Lemma store_holds_the_usable_downloads_witness :
  get_financial_data download_no_gold !! key_gold = None
  /\ get_financial_data download_no_gold !! key_vix
     = Some (frame [105%Q; 100%Q])
  /\ get_financial_data download_no_gold !! "GC=F" = None.
Proof.
  destruct (store_holds_the_usable_downloads download_no_gold) as [Hin Hout].
  split; [|split].
  - rewrite (Hin key_gold "GC=F"); [reflexivity|].
    apply (bool_decide_unpack _). by vm_compute.
  - rewrite (Hin key_vix "^VIX"); [reflexivity|].
    apply (bool_decide_unpack _). by vm_compute.
  - apply Hout. apply (bool_decide_unpack _). by vm_compute.
Defined.

(** * main *)

Ltac simpl_outcome :=
  cbn [mbind outcome_bind mret outcome_ret lift].

Lemma iloc_second_last (s : Series) :
  ((2 <= length s)%nat -> exists x, iloc s (-2) = Ok x)
  /\ ((length s < 2)%nat -> iloc s (-2) = Raise IndexError).
Proof.
  split; intros Hlen.
  - apply iloc_in_range. lia.
  - unfold iloc. change (-2 <? 0) with true. cbv iota.
    destruct (Z.leb_spec 0 (Z.of_nat (length s) + -2)); [lia|]. done.
Qed.

(** What [main] reads of one frame for its metric: the last two closes. *)
Lemma metric_reads (data : gmap string DataFrame) (key : string) :
  frames_nonempty data ->
  match data !! key with
  | None => getitem data key = Failed (KeyError key)
  | Some df =>
      getitem data key = Done df
      /\ (exists cur, iloc (col_Close df) (-1) = Ok cur)
      /\ if decide (2 <= length df)%nat
         then exists prev, iloc (col_Close df) (-2) = Ok prev
         else iloc (col_Close df) (-2) = Raise IndexError
  end.
Proof.
  intros Hne. unfold getitem.
  destruct (data !! key) as [df|] eqn:Hdf; [|done].
  split; [done|]. split.
  - apply iloc_in_range, nonempty_in_range, col_Close_nonempty.
    by eapply Hne.
  - case_decide.
    + apply iloc_second_last. by rewrite length_col_Close.
    + apply iloc_second_last. rewrite length_col_Close. lia.
Qed.

Ltac run_outcome :=
  repeat (simpl_outcome;
          match goal with
          | H : getitem _ _ = _ |- _ => rewrite H
          | H : iloc _ _ = _ |- _ => rewrite H
          end);
  simpl_outcome.

(** The page is rendered exactly when the gold frame and the dollar-index
    frame are both in the store with two rows or more. *)
Lemma render_completes_iff (data : gmap string DataFrame)
    (news : list NewsItem) :
  frames_nonempty data ->
  (exists view, render data news = Done view)
  <-> two_rows data key_gold /\ two_rows data key_dxy.
Proof.
  intros Hne.
  destruct (calculate_signal_returns data Hne) as [sr Hsr].
  pose proof (metric_reads data key_gold Hne) as Hg.
  pose proof (metric_reads data key_dxy Hne) as Hd.
  unfold render, two_rows. rewrite Hsr.
  destruct (data !! key_gold) as [g|].
  2:{ run_outcome. split; [by intros [? ?]|]. by intros [(? & ? & ?) _]. }
  destruct Hg as (Hget & [cur Hcur] & Hg).
  case_decide as Hlen.
  2:{ run_outcome. split; [by intros [? ?]|].
      intros [(? & [= <-] & ?) _]. lia. }
  destruct Hg as [prev Hprev].
  destruct (data !! key_dxy) as [d|].
  2:{ run_outcome. split; [by intros [? ?]|]. by intros [_ (? & ? & ?)]. }
  destruct Hd as (Hget' & [cur' Hcur'] & Hd).
  case_decide as Hlen'.
  2:{ run_outcome. split; [by intros [? ?]|].
      intros [_ (? & [= <-] & ?)]. lia. }
  destruct Hd as [prev' Hprev'].
  run_outcome. split; [|eauto]. intros _. split; eauto.
Qed.

(** X15.  How the page fails: KeyError when the gold frame is missing, IndexError
    when it has a single row, and the same for the dollar-index frame once
    the gold metric is shown.  The signal is computed before, without an
    exception. *)
Theorem render_failures (data : gmap string DataFrame) (news : list NewsItem) :
  frames_nonempty data ->
  (exists sr, calculate_signal data = Ok sr)
  /\ (data !! key_gold = None ->
      render data news = Failed (KeyError key_gold))
  /\ (forall row, data !! key_gold = Some ([row] : DataFrame) ->
        render data news = Failed (Engine IndexError))
  /\ (two_rows data key_gold -> data !! key_dxy = None ->
      render data news = Failed (KeyError key_dxy))
  /\ (two_rows data key_gold ->
      forall row, data !! key_dxy = Some ([row] : DataFrame) ->
        render data news = Failed (Engine IndexError)).
Proof.
  intros Hne.
  destruct (calculate_signal_returns data Hne) as [sr Hsr].
  pose proof (metric_reads data key_gold Hne) as Hg.
  pose proof (metric_reads data key_dxy Hne) as Hd.
  split; [eauto|].
  unfold render. rewrite Hsr.
  split; [|split; [|split]].
  - intros Hnone. rewrite Hnone in Hg. by run_outcome.
  - intros row Hrow. rewrite Hrow in Hg.
    destruct Hg as (Hget & [cur Hcur] & Hg).
    case_decide as Hlen; [simpl in Hlen; lia|]. by run_outcome.
  - intros (g & Hgold & Hlen) Hnone. rewrite Hgold in Hg. rewrite Hnone in Hd.
    destruct Hg as (Hget & [cur Hcur] & Hg).
    case_decide; [|lia]. destruct Hg as [prev Hprev]. by run_outcome.
  - intros (g & Hgold & Hlen) row Hrow. rewrite Hgold in Hg. rewrite Hrow in Hd.
    destruct Hg as (Hget & [cur Hcur] & Hg).
    destruct (decide (2 <= length g)%nat); [|lia].
    destruct Hg as [prev Hprev].
    destruct Hd as (Hget' & [cur' Hcur'] & Hd).
    destruct (decide (2 <= length [row])%nat) as [Hlen'|];
      [simpl in Hlen'; lia|].
    by run_outcome.
Qed.

Lemma render_failures_witness :
  (exists sr, calculate_signal (data_vix 25) = Ok sr)
  /\ render (data_vix 25) [] = Failed (KeyError key_gold).
Proof.
  assert (frames_nonempty (data_vix 25)) as Hne.
  { intros k df Hk. destruct (decide (k = key_vix)) as [->|Hk'].
    - vm_compute in Hk. by injection Hk as <-.
    - unfold data_vix in Hk. by rewrite lookup_singleton_ne in Hk. }
  destruct (render_failures (data_vix 25) [] Hne) as (Hsr & Hgold & _).
  split; [exact Hsr|]. apply Hgold. reflexivity.
Defined.

(** X16.  For the store [get_financial_data] builds and any list of news
    already fetched: what [main] does after fetching completes exactly when
    the gold download and the dollar-index download both left a frame of
    two rows or more in the store; when the gold download raised or
    returned no rows, it raises KeyError. *)
Theorem page_needs_gold_and_dollar (download : string -> option DataFrame)
    (news : list NewsItem) :
  ((exists view, render (get_financial_data download) news = Done view)
   <-> (exists g, stored download "GC=F" = Some g /\ (2 <= length g)%nat)
       /\ (exists d, stored download "DX-Y.NYB" = Some d /\ (2 <= length d)%nat))
  /\ (stored download "GC=F" = None ->
      render (get_financial_data download) news = Failed (KeyError key_gold)).
Proof.
  assert ((key_gold, "GC=F") ∈ tickers) as Hg
    by (apply (bool_decide_unpack _); by vm_compute).
  assert ((key_dxy, "DX-Y.NYB") ∈ tickers) as Hd
    by (apply (bool_decide_unpack _); by vm_compute).
  pose proof (get_financial_data_nonempty download) as Hne.
  split.
  - rewrite (render_completes_iff _ _ Hne). unfold two_rows.
    by rewrite (store_lookup_ticker download _ _ Hg),
      (store_lookup_ticker download _ _ Hd).
  - intros Hnone.
    pose proof (metric_reads _ key_gold Hne) as Hget.
    destruct (calculate_signal_returns _ Hne) as [sr Hsr].
    rewrite (store_lookup_ticker download _ _ Hg), Hnone in Hget.
    unfold render. rewrite Hsr. by run_outcome.
Qed.

Lemma page_needs_gold_and_dollar_witness :
  (exists view, render (get_financial_data download_all) [] = Done view)
  /\ render (get_financial_data download_no_gold) []
     = Failed (KeyError key_gold).
Proof.
  split.
  - apply (page_needs_gold_and_dollar download_all []).
    split; eexists; (split; [reflexivity | simpl; lia]).
  - apply (page_needs_gold_and_dollar download_no_gold []).
    reflexivity.
Defined.

(** ** The chart *)

Lemma fold_fadd_Fin (qs : list Q) (a : Q) :
  fold_left fadd (map Fin qs) (Fin a) = Fin (fold_left Qplus qs a).
Proof.
  revert a. induction qs as [|q qs IH]; intros a; [done|]. simpl. apply IH.
Qed.

Lemma fold_Qplus_Qsum (qs : list Q) (a : Q) :
  (fold_left Qplus qs a == a + Qsum qs)%Q.
Proof.
  revert a. induction qs as [|q qs IH]; intros a; simpl.
  - ring.
  - rewrite IH. ring.
Qed.

Lemma fdiv_Fin_nonzero (a b : Q) :
  ~ (b == 0)%Q -> fdiv (Fin a) (Fin b) = Fin (a / b).
Proof.
  intros Hb. unfold fdiv.
  destruct (b ?= 0)%Q eqn:Hcmp; [|done|done].
  by apply Qeq_alt in Hcmp.
Qed.

(** A finite mean is the sum over the number of entries, and there is at
    least one entry. *)
Lemma fmean_Fin (qs : list Q) (m : Q) :
  fmean (map Fin qs) = Fin m ->
  ~ (inject_Z (Z.of_nat (length qs)) == 0)%Q
  /\ (m == Qsum qs / inject_Z (Z.of_nat (length qs)))%Q.
Proof.
  unfold fmean, fsum. rewrite fold_fadd_Fin, length_map. unfold fdiv.
  destruct (inject_Z (Z.of_nat (length qs)) ?= 0)%Q eqn:Hcmp.
  - by destruct (fold_left Qplus qs 0 ?= 0)%Q.
  - intros [= <-]. split.
    + intros H%Qeq_alt. congruence.
    + rewrite fold_Qplus_Qsum. field. intros H%Qeq_alt. congruence.
  - intros [= <-]. split.
    + intros H%Qeq_alt. congruence.
    + rewrite fold_Qplus_Qsum. field. intros H%Qeq_alt. congruence.
Qed.

Lemma Qsum_centred (qs : list Q) (m : Q) :
  ~ (m == 0)%Q ->
  (Qsum (map (fun q => (q + - m) / m) qs)
   == (Qsum qs - inject_Z (Z.of_nat (length qs)) * m) / m)%Q.
Proof.
  intros Hm. induction qs as [|q qs IH].
  - simpl. field. done.
  - cbn [map Qsum length]. rewrite IH, Nat2Z.inj_succ. unfold Z.succ.
    rewrite inject_Z_plus. change (inject_Z 1) with 1%Q. field. done.
Qed.

(** A series of finite values with a mean other than zero, once
    normalised, sums up to zero. *)
Lemma normalize_sum_zero (qs : list Q) (m : Q) :
  fmean (map Fin qs) = Fin m -> ~ (m == 0)%Q ->
  exists z, fsum (normalize (map Fin qs)) = Fin z /\ (z == 0)%Q.
Proof.
  intros Hmean Hm. destruct (fmean_Fin qs m Hmean) as [Hn Hmq].
  unfold normalize. rewrite Hmean, map_map.
  assert (map (fun x => fdiv (fsub (Fin x) (Fin m)) (Fin m)) qs
          = map Fin (map (fun q => (q + - m) / m)%Q qs)) as ->.
  { rewrite map_map. apply map_ext. intros q.
    by apply fdiv_Fin_nonzero. }
  unfold fsum. rewrite fold_fadd_Fin. eexists. split; [reflexivity|].
  rewrite fold_Qplus_Qsum, Qsum_centred by done.
  rewrite Hmq. field. split; [done|].
  intros H0. apply Hm. rewrite Hmq, H0. field. done.
Qed.

(** X17.  The normalised series of lines 175-176 (the Gold column of the
    chart; for the dollar index the series before it is aligned on the gold
    index) has one entry for each of the last 120 closes of its frame, all
    of them when there are fewer; and when their mean is finite and not
    zero, the series is centred: in exact arithmetic its entries sum up to
    zero. *)
Theorem chart_column_is_centred (df : DataFrame) (m : Q) :
  fmean (tail_slice 120 (col_Close df)) = Fin m -> ~ (m == 0)%Q ->
  length (chart_column df) = Nat.min 120 (length df)
  /\ exists z, fsum (chart_column df) = Fin z /\ (z == 0)%Q.
Proof.
  intros Hmean Hm. unfold chart_column. split.
  - unfold normalize, tail_slice.
    rewrite length_map, length_skipn, length_col_Close. lia.
  - revert Hmean. unfold tail_slice, col_Close.
    rewrite <- (map_map Close Fin), skipn_map. intros Hmean.
    by apply (normalize_sum_zero _ m).
Qed.

Lemma chart_column_is_centred_witness :
  length (chart_column (frame [1900%Q; 1910%Q; 1920%Q])) = Nat.min 120 3
  /\ exists z, fsum (chart_column (frame [1900%Q; 1910%Q; 1920%Q])) = Fin z
               /\ (z == 0)%Q.
Proof.
  apply (chart_column_is_centred (frame [1900%Q; 1910%Q; 1920%Q]) (5730 # 3)).
  - reflexivity.
  - discriminate.
Defined.

(** * get_news *)

(** A loop that appends to a list adds the images of what it runs over. *)
Lemma append_loop {A B : Type} (f : A -> B) (l : list A) (acc : list B) :
  fold_left (fun items x => items ++ [f x]) l acc = acc ++ map f l.
Proof.
  revert acc. induction l as [|x l IH]; intros acc; simpl.
  - by rewrite app_nil_r.
  - by rewrite IH, <- app_assoc.
Qed.

(** X18.  The headlines are the first five entries of the first feed followed by
    the first five entries of the second, each feed in its own order. *)
Theorem headlines_in_feed_order (parse : string -> list Entry) :
  get_news parse
  = flat_map (fun url => map news_item (firstn 5 (parse url))) rss_urls.
Proof.
  unfold get_news, rss_urls. cbn [fold_left flat_map].
  rewrite !append_loop. by rewrite app_nil_r.
Qed.

(** X19.  There are at most ten headlines, five per feed at most, and each one is
    built from one of the first five entries of one of the two feeds. *)
Theorem at_most_ten_headlines (parse : string -> list Entry) :
  (length (get_news parse) <= 10)%nat
  /\ forall item, item ∈ get_news parse ->
       exists url i entry,
         url ∈ rss_urls /\ (i < 5)%nat /\ parse url !! i = Some entry
         /\ item = news_item entry.
Proof.
  unfold get_news, rss_urls. cbn [fold_left].
  rewrite !append_loop. cbn [app]. split.
  - rewrite length_app, !length_map, !length_firstn. lia.
  - intros item [Hin|Hin]%elem_of_app.
    + apply list_elem_of_fmap_1 in Hin as (entry & -> & Hin).
      apply elem_of_take in Hin as (i & Hi & Hlt).
      eexists _, i, entry. split; [|done]. apply list_elem_of_here.
    + apply list_elem_of_fmap_1 in Hin as (entry & -> & Hin).
      apply elem_of_take in Hin as (i & Hi & Hlt).
      eexists _, i, entry. split; [|done].
      apply list_elem_of_further, list_elem_of_here.
Qed.

Lemma at_most_ten_headlines_witness :
  length (get_news parse_seven) = 10%nat
  /\ (length (get_news parse_seven) <= 10)%nat
  /\ exists url i entry,
       url ∈ rss_urls /\ (i < 5)%nat /\ parse_seven url !! i = Some entry
       /\ mkNewsItem "A" "https://example.com" just_now = news_item entry.
Proof.
  destruct (at_most_ten_headlines parse_seven) as [Hlen Hfrom].
  split; [reflexivity|]. split; [exact Hlen|].
  apply Hfrom. vm_compute. apply list_elem_of_here.
Defined.

(** * What the dollar rule compares *)

Lemma col_Close_map (df : DataFrame) : col_Close df = Fin <$> map Close df.
Proof. unfold col_Close. by rewrite <- (map_map Close Fin). Qed.

(** A position counted from the end. *)
Lemma iloc_from_end (s : Series) (k : nat) (x : float64) :
  (0 < k <= length s)%nat ->
  s !! (length s - k)%nat = Some x ->
  iloc s (- Z.of_nat k) = Ok x.
Proof.
  intros Hk Hx. unfold iloc.
  destruct (Z.ltb_spec (- Z.of_nat k) 0); [|lia].
  destruct (Z.leb_spec 0 (Z.of_nat (length s) + - Z.of_nat k)); [|lia].
  destruct (Z.ltb_spec (Z.of_nat (length s) + - Z.of_nat k)
              (Z.of_nat (length s))); [|lia].
  replace (Z.to_nat (Z.of_nat (length s) + - Z.of_nat k))
    with (length s - k)%nat by lia.
  by rewrite Hx.
Qed.

Lemma iloc_first (s : Series) (x : float64) :
  s !! 0%nat = Some x -> iloc s 0 = Ok x.
Proof.
  intros Hx. unfold iloc. change (0 <? 0) with false. cbv iota.
  destruct s as [|y s]; [done|].
  destruct (Z.ltb_spec 0 (Z.of_nat (length (y :: s)))); [|simpl in *; lia].
  change (Z.to_nat 0) with 0%nat. by rewrite Hx.
Qed.

(** X10.  The dollar rule compares the latest close with the close 23 rows before
    it when the frame has more than 24 rows, and with the first close
    otherwise; the weakening reason is reported exactly when the latest
    close is the smaller one. *)
Theorem dxy_rule_compares_with_lag (data : gmap string DataFrame)
    (df : DataFrame) (score : Z) (reasons : list string) (now prev : Q) :
  data !! key_dxy = Some df ->
  last (map Close df) = Some now ->
  map Close df !! (if (24 <? length df)%nat then length df - 24 else 0)%nat
  = Some prev ->
  calculate_signal data = Ok (score, reasons) ->
  (reason_dxy_weak ∈ reasons <-> (now < prev)%Q)
  /\ (reason_dxy_strong ∈ reasons <-> (prev <= now)%Q).
Proof.
  intros Hdf Hnow Hprev Hrun.
  apply calculate_signal_fired in Hrun as [= -> ->].
  rewrite (reason_reported_iff data DxyWeak), (reason_reported_iff data DxyStrong).
  cbn [precondition]. unfold dxy_indicators. rewrite Hdf.
  assert (iloc (col_Close df) (-1) = Ok (Fin now)) as ->.
  { rewrite iloc_last, col_Close_map, fmap_last, Hnow. done. }
  assert ((if (24 <? length df)%nat
           then iloc (col_Close df) (-24) else iloc (col_Close df) 0)
          = Ok (Fin prev)) as ->.
  { destruct (Nat.ltb_spec 24 (length df)) as [Hlen|Hlen].
    - apply (iloc_from_end (col_Close df) 24);
        [rewrite length_col_Close; lia|].
      unfold Series. rewrite length_col_Close, col_Close_map.
      by rewrite list_lookup_fmap, Hprev.
    - apply iloc_first. unfold Series. rewrite col_Close_map.
      by rewrite list_lookup_fmap, Hprev. }
  cbn [flt]. split.
  - apply Qltb_lt.
  - rewrite negb_true_iff. apply Qltb_ge.
Qed.

Lemma dxy_rule_compares_with_lag_witness :
  (reason_dxy_weak ∈ [reason_dxy_strong] <-> (100 < 90)%Q)
  /\ (reason_dxy_strong ∈ [reason_dxy_strong] <-> (90 <= 100)%Q).
Proof.
  apply (dxy_rule_compares_with_lag data_dxy_25 dxy_25 (-2)); reflexivity.
Defined.
